(** * java/java.go: module types for compiling Java for Android

    A shallow embedding of [java/java.go]: the boot-classpath policy, the
    declaration of dynamic dependencies, the collection of resolved
    dependencies, the build-action pipeline of [javaBase], the prebuilt
    module type and the module factories.

    Code that java.go calls but that lives elsewhere (builder.go,
    resources.go, the [common] package, [path/filepath], [pathtools]) is
    taken as a parameter, gathered in the class [BuildEnv]. *)

From Stdlib Require Import String List Bool Arith Lia.
Import ListNotations.
Open Scope string_scope.
Open Scope list_scope.

(** ** What java.go imports *)

(** javaBuilderFlags (builder.go), with the fields java.go writes. *)
Record javaBuilderFlags := {
  javacFlags : string;
  dxFlags : string;
  bootClasspath : string;
  classpath : string
}.

(** [jarSpec] is declared in builder.go; java.go only moves values of it
    around.  The other fields are the pure results of helpers called with a
    context: paths they return, not the rules they emit. *)
Class BuildEnv := {
  jarSpec : Type;
  (* filepath.Join, always called with two elements here *)
  filepath_Join : string -> string -> string;
  (* pathtools.PrefixPaths(paths, prefix) *)
  PrefixPaths : list string -> string -> list string;
  (* common.ExpandGlobs(ctx, srcFiles) *)
  ExpandGlobs : list string -> list string;
  (* ResourceDirsToJarSpecs(ctx, dirs) *)
  ResourceDirsToJarSpecs : list string -> list jarSpec;
  (* ctx.InstallFileName(subdir, name, srcFile): the installed path *)
  InstallFileName : string -> string -> string -> string;
  (* the values returned by the Transform* functions of builder.go *)
  classesOf : list string -> javaBuilderFlags -> list string -> jarSpec;
  classesJarOf : list jarSpec -> string -> string;
  jarjarOf : string -> string -> string;
  dexOf : string -> javaBuilderFlags -> string;
  javaLibOf : list jarSpec -> string -> string;
  prebuiltSpecsOf : string -> jarSpec * jarSpec
}.

(** strings.Join(a, sep) *)
Definition strings_Join (a : list string) (sep : string) : string :=
  String.concat sep a.

(** ** javaBase *)

Record javaProperties := {
  Srcs : list string;
  Resource_dirs : list string;
  No_standard_libraries : bool;
  Javacflags : list string;
  Dxflags : list string;
  Java_libs : list string;
  Java_static_libs : list string;
  Manifest : string;
  Sdk_version : string;
  Dex : bool;
  Jarjar_rules : string
}.



Record javaBase `{BuildEnv} := {
  properties : javaProperties;
  (* output file suitable for inserting into the classpath of another compile *)
  classpathFile : string;
  (* jarSpecs suitable for inserting classes from a static library into another jar *)
  classJarSpecs : list jarSpec;
  (* jarSpecs suitable for inserting resources from a static library into another jar *)
  resourceJarSpecs : list jarSpec;
  (* installed file for binary dependency *)
  installFile : string
}.

(** Field assignments [j.f = v]. *)
Definition set_classJarSpecs `{BuildEnv} (j : javaBase) (v : list jarSpec) : javaBase :=
  {| properties := properties j; classpathFile := classpathFile j;
     classJarSpecs := v; resourceJarSpecs := resourceJarSpecs j;
     installFile := installFile j |}.

Definition set_resourceJarSpecs `{BuildEnv} (j : javaBase) (v : list jarSpec) : javaBase :=
  {| properties := properties j; classpathFile := classpathFile j;
     classJarSpecs := classJarSpecs j; resourceJarSpecs := v;
     installFile := installFile j |}.

Definition set_classpathFile `{BuildEnv} (j : javaBase) (v : string) : javaBase :=
  {| properties := properties j; classpathFile := v;
     classJarSpecs := classJarSpecs j; resourceJarSpecs := resourceJarSpecs j;
     installFile := installFile j |}.

Definition set_installFile `{BuildEnv} (j : javaBase) (v : string) : javaBase :=
  {| properties := properties j; classpathFile := classpathFile j;
     classJarSpecs := classJarSpecs j; resourceJarSpecs := resourceJarSpecs j;
     installFile := v |}.

(** The zero value [&javaBase{}]. *)
Definition zero_javaProperties : javaProperties :=
  {| Srcs := []; Resource_dirs := []; No_standard_libraries := false;
     Javacflags := []; Dxflags := []; Java_libs := []; Java_static_libs := [];
     Manifest := ""; Sdk_version := ""; Dex := false; Jarjar_rules := "" |}.


(** ** The interface JavaDependency and its implementations *)

Class JavaDependency `{BuildEnv} (M : Type) := {
  ClasspathFile : M -> string;
  ClassJarSpecs : M -> list jarSpec;
  ResourceJarSpecs : M -> list jarSpec
}.

#[export] Instance javaBase_JavaDependency `{BuildEnv} : JavaDependency javaBase := {|
  ClasspathFile := fun j => classpathFile j;
  ClassJarSpecs := fun j => classJarSpecs j;
  ResourceJarSpecs := fun j => resourceJarSpecs j
|}.

Module Prebuilt.

Record properties_t := {
  Srcs : list string
}.

Record JavaPrebuilt `{BuildEnv} := {
  properties : properties_t;
  classpathFile : string;
  classJarSpecs : list jarSpec;
  resourceJarSpecs : list jarSpec
}.

(** The zero value [&JavaPrebuilt{}]. *)
Definition zero `{BuildEnv} : JavaPrebuilt :=
  {| properties := {| Srcs := [] |}; classpathFile := "";
     classJarSpecs := []; resourceJarSpecs := [] |}.

End Prebuilt.

#[export] Instance JavaPrebuilt_JavaDependency `{BuildEnv} :
    JavaDependency Prebuilt.JavaPrebuilt := {|
  ClasspathFile := fun p => Prebuilt.classpathFile p;
  ClassJarSpecs := fun p => Prebuilt.classJarSpecs p;
  ResourceJarSpecs := fun p => Prebuilt.resourceJarSpecs p
|}.

(** A [blueprint.Module] as the visitor of [collectDeps] sees it: either a
    value that passes the type assertion [module.(JavaDependency)], or one
    that does not. *)
Inductive blueprint_Module `{BuildEnv} :=
| IsJavaDependency (M : Type) (I : JavaDependency M) (javaDep : M)
| NotJavaDependency.

Arguments IsJavaDependency {_ M I} javaDep.

(** ** Contexts *)

(** One transform requested from builder.go, with its inputs. *)
Inductive Stage `{BuildEnv} :=
| JavaToClasses (srcFiles : list string) (flags : javaBuilderFlags) (deps : list string)
| ClassesToJar (jarSpecs : list jarSpec) (manifest : string)
| JarJar (classesJar rules : string)
| ClassesJarToDex (classesJar : string) (flags : javaBuilderFlags)
| DexToJavaLib (resources : list jarSpec) (dexFile : string)
| PrebuiltJarToClasses (prebuilt : string).

(** What a module reports through [ctx.ModuleErrorf], or what a transform
    reports on its own account. *)
Inductive moduleError `{BuildEnv} :=
| UnknownDependencyModuleType (otherName : string)
| ExpectedExactlyOneJar
| StageFailure (s : Stage).

(** The value carried by [panic]. *)
Inductive panicValue :=
| UnknownDependency (otherName moduleName : string).

(** The part of a context that a module only reads. *)
Record AndroidModuleContext `{BuildEnv} := {
  Device : bool;
  ModuleName : string;
  ModuleSrcDir : string;
  ModuleOutDir : string;
  (* the direct dependencies in the order VisitDirectDeps visits them,
     each with its OtherModuleName *)
  directDeps : list (string * blueprint_Module);
  (* ctx.AConfig().Getenv *)
  Getenv : string -> string;
  (* whether a transform reports an error when it is requested *)
  stageFails : Stage -> bool
}.

(** The part of a context that calls change. *)
Record ctxState `{BuildEnv} := {
  errors : list moduleError;
  rules : list Stage;
  installs : list (string * string * string)
}.

Definition emptyState `{BuildEnv} : ctxState :=
  {| errors := []; rules := []; installs := [] |}.

(** A call either returns with a new context state or panics. *)
Inductive outcome (A : Type) :=
| Returns (a : A)
| Panics (p : panicValue).

Arguments Returns {A} a.
Arguments Panics {A} p.

Definition Action `{BuildEnv} (A : Type) : Type :=
  ctxState -> outcome (A * ctxState).

Definition ret `{BuildEnv} {A : Type} (a : A) : Action A :=
  fun s => Returns (a, s).

Definition bind `{BuildEnv} {A B : Type} (m : Action A) (k : A -> Action B) : Action B :=
  fun s => match m s with
           | Returns (a, s') => k a s'
           | Panics p => Panics p
           end.

Definition panic `{BuildEnv} {A : Type} (p : panicValue) : Action A :=
  fun _ => Panics p.

Declare Scope action_scope.
Delimit Scope action_scope with action.
Notation "x <- m ;; k" := (bind m (fun x => k))
  (at level 61, m at next level, right associativity) : action_scope.
Notation "' pat <- m ;; k" := (bind m (fun x => match x with pat => k end))
  (at level 61, pat pattern, m at next level, right associativity) : action_scope.
Notation "m ;;; k" := (bind m (fun _ => k))
  (at level 61, right associativity) : action_scope.
Open Scope action_scope.

Definition ModuleErrorf `{BuildEnv} (e : moduleError) : Action unit :=
  fun s => Returns (tt, {| errors := errors s ++ [e]; rules := rules s;
                           installs := installs s |}).

Definition Failed `{BuildEnv} : Action bool :=
  fun s => Returns (match errors s with [] => false | _ :: _ => true end, s).

(** Requesting a transform: the rule is recorded, and an error is reported
    when the transform fails. *)
Definition request `{BuildEnv} (ctx : AndroidModuleContext) (st : Stage) : Action unit :=
  fun s =>
    let s' := {| errors := errors s; rules := rules s ++ [st]; installs := installs s |} in
    if stageFails ctx st then ModuleErrorf (StageFailure st) s' else Returns (tt, s').

Definition TransformJavaToClasses `{BuildEnv} (ctx : AndroidModuleContext)
    (srcFiles : list string) (flags : javaBuilderFlags) (deps : list string) : Action jarSpec :=
  request ctx (JavaToClasses srcFiles flags deps) ;;; ret (classesOf srcFiles flags deps).

Definition TransformClassesToJar `{BuildEnv} (ctx : AndroidModuleContext)
    (jarSpecs : list jarSpec) (manifest : string) : Action string :=
  request ctx (ClassesToJar jarSpecs manifest) ;;; ret (classesJarOf jarSpecs manifest).

Definition TransformJarJar `{BuildEnv} (ctx : AndroidModuleContext)
    (classesJar rules : string) : Action string :=
  request ctx (JarJar classesJar rules) ;;; ret (jarjarOf classesJar rules).

Definition TransformClassesJarToDex `{BuildEnv} (ctx : AndroidModuleContext)
    (classesJar : string) (flags : javaBuilderFlags) : Action string :=
  request ctx (ClassesJarToDex classesJar flags) ;;; ret (dexOf classesJar flags).

Definition TransformDexToJavaLib `{BuildEnv} (ctx : AndroidModuleContext)
    (resources : list jarSpec) (dexFile : string) : Action string :=
  request ctx (DexToJavaLib resources dexFile) ;;; ret (javaLibOf resources dexFile).

Definition TransformPrebuiltJarToClasses `{BuildEnv} (ctx : AndroidModuleContext)
    (prebuilt : string) : Action (jarSpec * jarSpec) :=
  request ctx (PrebuiltJarToClasses prebuilt) ;;; ret (prebuiltSpecsOf prebuilt).

Definition ctx_InstallFileName `{BuildEnv} (subdir name srcFile : string) : Action string :=
  fun s => Returns (InstallFileName subdir name srcFile,
                    {| errors := errors s; rules := rules s;
                       installs := installs s ++ [(subdir, name, srcFile)] |}).

Definition ctx_InstallFile `{BuildEnv} (subdir srcFile dep : string) : Action unit :=
  fun s => Returns (tt, {| errors := errors s; rules := rules s;
                           installs := installs s ++ [(subdir, srcFile, dep)] |}).

(** ** The functions of java.go *)

Fixpoint inList (s : string) (l : list string) : bool :=
  match l with
  | [] => false
  | e :: l' => if String.eqb e s then true else inList s l'
  end.

Definition BootClasspath `{BuildEnv} (j : javaBase) (ctx : AndroidModuleContext) : string :=
  if Device ctx then
    if String.eqb (Sdk_version (properties j)) "" then
      "core-libart"
    else if String.eqb (Sdk_version (properties j)) "current" then
      "android_stubs_current"
    else if String.eqb (Sdk_version (properties j)) "system_current" then
      "android_system_stubs_current"
    else
      ("sdk_v" ++ Sdk_version (properties j))%string
  else
    if Dex (properties j) then "core-libart" else "".

Definition AndroidDynamicDependencies `{BuildEnv} (j : javaBase)
    (ctx : AndroidModuleContext) : list string :=
  let deps := [] in
  let deps :=
    if negb (No_standard_libraries (properties j)) then
      let bootClasspath := BootClasspath j ctx in
      if negb (String.eqb bootClasspath "") then deps ++ [bootClasspath] else deps
    else deps in
  let deps := deps ++ Java_libs (properties j) in
  let deps := deps ++ Java_static_libs (properties j) in
  deps.

(** The locals [classpath], [bootClasspath], [classJarSpecs] and
    [resourceJarSpecs] that the visitor of [collectDeps] closes over. *)
Definition collected `{BuildEnv} : Type :=
  (list string * string * list jarSpec * list jarSpec)%type.

(** The body of the closure passed to [ctx.VisitDirectDeps]. *)
Definition visitDep `{BuildEnv} (j : javaBase) (ctx : AndroidModuleContext)
    (acc : collected) (otherName : string) (module : blueprint_Module) : Action collected :=
  let '(classpath, bootClasspath, classJarSpecs, resourceJarSpecs) := acc in
  match module with
  | IsJavaDependency javaDep =>
      if inList otherName (Java_libs (properties j)) then
        ret (classpath ++ [ClasspathFile javaDep], bootClasspath,
             classJarSpecs, resourceJarSpecs)
      else if inList otherName (Java_static_libs (properties j)) then
        ret (classpath ++ [ClasspathFile javaDep], bootClasspath,
             classJarSpecs ++ ClassJarSpecs javaDep,
             resourceJarSpecs ++ ResourceJarSpecs javaDep)
      else if String.eqb otherName (BootClasspath j ctx) then
        ret (classpath, ClasspathFile javaDep, classJarSpecs, resourceJarSpecs)
      else
        panic (UnknownDependency otherName (ModuleName ctx))
  | NotJavaDependency =>
      ModuleErrorf (UnknownDependencyModuleType otherName) ;;; ret acc
  end.

Fixpoint visitEach `{BuildEnv} {A : Type} (visit : A -> string -> blueprint_Module -> Action A)
    (deps : list (string * blueprint_Module)) (acc : A) : Action A :=
  match deps with
  | [] => ret acc
  | (otherName, module) :: rest =>
      acc' <- visit acc otherName module ;; visitEach visit rest acc'
  end.

Definition VisitDirectDeps `{BuildEnv} {A : Type} (ctx : AndroidModuleContext)
    (visit : A -> string -> blueprint_Module -> Action A) (acc : A) : Action A :=
  visitEach visit (directDeps ctx) acc.

Definition collectDeps `{BuildEnv} (j : javaBase) (ctx : AndroidModuleContext) :
    Action collected :=
  VisitDirectDeps ctx (visitDep j ctx) ([], "", [], []).

Definition set_bootClasspath (flags : javaBuilderFlags) (v : string) : javaBuilderFlags :=
  {| javacFlags := javacFlags flags; dxFlags := dxFlags flags;
     bootClasspath := v; classpath := classpath flags |}.

Definition set_classpath (flags : javaBuilderFlags) (v : string) : javaBuilderFlags :=
  {| javacFlags := javacFlags flags; dxFlags := dxFlags flags;
     bootClasspath := bootClasspath flags; classpath := v |}.

Definition set_dxFlags (flags : javaBuilderFlags) (v : string) : javaBuilderFlags :=
  {| javacFlags := javacFlags flags; dxFlags := v;
     bootClasspath := bootClasspath flags; classpath := classpath flags |}.

Definition nonEmpty (s : string) : bool := negb (String.eqb s "").

(** The [if j.properties.Dex { ... }] block and the install that follows. *)
Definition dexAndInstall `{BuildEnv} (j : javaBase) (ctx : AndroidModuleContext)
    (flags : javaBuilderFlags) (resourceJarSpecs : list jarSpec) (outputFile : string) :
    Action javaBase :=
  let install (outputFile : string) : Action javaBase :=
    installed <- ctx_InstallFileName "framework" (ModuleName ctx ++ ".jar")%string outputFile ;;
    ret (set_installFile j installed) in
  if Dex (properties j) then
    let dxFlags := Dxflags (properties j) in
    let dxFlags :=
      if false (* emma enabled *) then dxFlags ++ ["--no-locals"] else dxFlags in
    let dxFlags :=
      if nonEmpty (Getenv ctx "NO_OPTIMIZE_DX") then dxFlags ++ ["--no-optimize"]
      else dxFlags in
    let dxFlags :=
      if nonEmpty (Getenv ctx "GENERATE_DEX_DEBUG") then
        dxFlags ++ ["--debug"; "--verbose";
                    ("--dump-to=" ++ filepath_Join (ModuleOutDir ctx) "classes.lst")%string;
                    "--dump-width=1000"]
      else dxFlags in
    let flags := set_dxFlags flags (strings_Join dxFlags " ") in
    dexFile <- TransformClassesJarToDex ctx outputFile flags ;;
    failed <- Failed ;;
    if failed then ret j
    else
      outputFile <- TransformDexToJavaLib ctx resourceJarSpecs dexFile ;;
      install outputFile
  else
    install outputFile.

(** The flags and the dependencies handed to the compile stage: the
    statements on [flags] and [javacDeps] before [TransformJavaToClasses]. *)
Definition javacInputs `{BuildEnv} (j : javaBase) (classpath : list string)
    (bootClasspath : string) : javaBuilderFlags * list string :=
  let flags := {| javacFlags := strings_Join (Javacflags (properties j)) " ";
                  dxFlags := ""; bootClasspath := ""; classpath := "" |} in
  let javacDeps : list string := [] in
  let '(flags, javacDeps) :=
    if nonEmpty bootClasspath then
      (set_bootClasspath flags ("-bootclasspath " ++ bootClasspath)%string,
       javacDeps ++ [bootClasspath])
    else (flags, javacDeps) in
  let '(flags, javacDeps) :=
    if (0 <? length classpath)%nat then
      (set_classpath flags ("-classpath " ++ strings_Join classpath ":")%string,
       javacDeps ++ classpath)
    else (flags, javacDeps) in
  (flags, javacDeps).

Definition javaBase_GenerateJavaBuildActions `{BuildEnv} (j : javaBase)
    (ctx : AndroidModuleContext) : Action javaBase :=
  let srcFiles := Srcs (properties j) in
  let srcFiles := PrefixPaths srcFiles (ModuleSrcDir ctx) in
  let srcFiles := ExpandGlobs srcFiles in
  '(classpath, bootClasspath, classJarSpecs, resourceJarSpecs) <- collectDeps j ctx ;;
  let '(flags, javacDeps) := javacInputs j classpath bootClasspath in
  classes <- TransformJavaToClasses ctx srcFiles flags javacDeps ;;
  failed <- Failed ;;
  if failed then ret j
  else
    let resourceJarSpecs :=
      ResourceDirsToJarSpecs (Resource_dirs (properties j)) ++ resourceJarSpecs in
    let classJarSpecs := [classes] ++ classJarSpecs in
    let manifest := Manifest (properties j) in
    let manifest :=
      if nonEmpty manifest then filepath_Join (ModuleSrcDir ctx) manifest else manifest in
    let allJarSpecs := [] ++ classJarSpecs in
    let allJarSpecs := allJarSpecs ++ resourceJarSpecs in
    outputFile <- TransformClassesToJar ctx allJarSpecs manifest ;;
    failed <- Failed ;;
    if failed then ret j
    else
      let j := set_classJarSpecs j classJarSpecs in
      let j := set_resourceJarSpecs j resourceJarSpecs in
      let afterJarjar (j : javaBase) (outputFile : string) : Action javaBase :=
        let j := set_classpathFile j outputFile in
        dexAndInstall j ctx flags resourceJarSpecs outputFile in
      if nonEmpty (Jarjar_rules (properties j)) then
        let jarjar_rules := filepath_Join (ModuleSrcDir ctx) (Jarjar_rules (properties j)) in
        outputFile <- TransformJarJar ctx outputFile jarjar_rules ;;
        failed <- Failed ;;
        if failed then ret j else afterJarjar j outputFile
      else
        afterJarjar j outputFile.

(** ** Java libraries, Java binaries and the interface JavaModuleType *)

Record JavaLibrary `{BuildEnv} := {
  JavaLibrary_javaBase : javaBase
}.

Record JavaBinary `{BuildEnv} := {
  JavaBinary_JavaLibrary : JavaLibrary;
  (* binaryProperties.Wrapper: installable script to execute the resulting jar *)
  Wrapper : string
}.

Class JavaModuleType `{BuildEnv} (M : Type) := {
  GenerateJavaBuildActions : M -> AndroidModuleContext -> Action M
}.

(** JavaLibrary embeds javaBase and inherits its method. *)
#[export] Instance JavaLibrary_JavaModuleType `{BuildEnv} : JavaModuleType JavaLibrary := {|
  GenerateJavaBuildActions := fun l ctx =>
    j <- javaBase_GenerateJavaBuildActions (JavaLibrary_javaBase l) ctx ;;
    ret {| JavaLibrary_javaBase := j |}
|}.

#[export] Instance JavaBinary_JavaModuleType `{BuildEnv} : JavaModuleType JavaBinary := {|
  GenerateJavaBuildActions := fun b ctx =>
    l <- GenerateJavaBuildActions (JavaBinary_JavaLibrary b) ctx ;;
    ctx_InstallFile "bin" (filepath_Join (ModuleSrcDir ctx) (Wrapper b))
                    (installFile (JavaLibrary_javaBase l)) ;;;
    ret {| JavaBinary_JavaLibrary := l; Wrapper := Wrapper b |}
|}.

#[export] Instance JavaLibrary_JavaDependency `{BuildEnv} : JavaDependency JavaLibrary := {|
  ClasspathFile := fun l => ClasspathFile (JavaLibrary_javaBase l);
  ClassJarSpecs := fun l => ClassJarSpecs (JavaLibrary_javaBase l);
  ResourceJarSpecs := fun l => ResourceJarSpecs (JavaLibrary_javaBase l)
|}.

(** [javaBase.GenerateAndroidBuildActions]: dispatch through [j.module]. *)
Definition javaBase_GenerateAndroidBuildActions `{BuildEnv} {M : Type} `{!JavaModuleType M}
    (module : M) (ctx : AndroidModuleContext) : Action M :=
  GenerateJavaBuildActions module ctx.

(** ** Factories *)

Inductive HostOrDeviceSupported :=
| HostSupported
| HostAndDeviceSupported.

Definition set_Dex_properties (p : javaProperties) (v : bool) : javaProperties :=
  {| Srcs := Srcs p; Resource_dirs := Resource_dirs p;
     No_standard_libraries := No_standard_libraries p;
     Javacflags := Javacflags p; Dxflags := Dxflags p;
     Java_libs := Java_libs p; Java_static_libs := Java_static_libs p;
     Manifest := Manifest p; Sdk_version := Sdk_version p;
     Dex := v; Jarjar_rules := Jarjar_rules p |}.

Definition set_properties `{BuildEnv} (j : javaBase) (p : javaProperties) : javaBase :=
  {| properties := p; classpathFile := classpathFile j;
     classJarSpecs := classJarSpecs j; resourceJarSpecs := resourceJarSpecs j;
     installFile := installFile j |}.







(** ** Java prebuilts *)

Definition JavaPrebuilt_GenerateAndroidBuildActions `{BuildEnv} (j : Prebuilt.JavaPrebuilt)
    (ctx : AndroidModuleContext) : Action Prebuilt.JavaPrebuilt :=
  if negb (length (Prebuilt.Srcs (Prebuilt.properties j)) =? 1)%nat then
    ModuleErrorf ExpectedExactlyOneJar ;;; ret j
  else
    let prebuilt :=
      filepath_Join (ModuleSrcDir ctx) (nth 0 (Prebuilt.Srcs (Prebuilt.properties j)) "") in
    '(classJarSpec, resourceJarSpec) <- TransformPrebuiltJarToClasses ctx prebuilt ;;
    let j := {| Prebuilt.properties := Prebuilt.properties j;
                Prebuilt.classpathFile := prebuilt;
                Prebuilt.classJarSpecs := [classJarSpec];
                Prebuilt.resourceJarSpecs := [resourceJarSpec] |} in
    ctx_InstallFileName "framework" (ModuleName ctx ++ ".jar")%string
                        (Prebuilt.classpathFile j) ;;;
    ret j.

Definition JavaPrebuiltFactory `{BuildEnv} : Prebuilt.JavaPrebuilt * HostOrDeviceSupported :=
  let module := Prebuilt.zero in
  (module, HostAndDeviceSupported).

(** ** A concrete environment and concrete modules

    Used to run the functions above on explicit inputs. *)

Definition sampleEnv : BuildEnv := {|
  jarSpec := string;
  filepath_Join := fun a b => (a ++ "/" ++ b)%string;
  PrefixPaths := fun paths prefix => map (fun p => (prefix ++ "/" ++ p)%string) paths;
  ExpandGlobs := fun srcFiles => srcFiles;
  ResourceDirsToJarSpecs := fun dirs => map (fun d => ("res/" ++ d)%string) dirs;
  InstallFileName := fun subdir name _ => ("out/" ++ subdir ++ "/" ++ name)%string;
  classesOf := fun _ _ _ => "classes.list";
  classesJarOf := fun _ _ => "classes-full-debug.jar";
  jarjarOf := fun _ _ => "classes-jarjar.jar";
  dexOf := fun _ _ => "classes.dex";
  javaLibOf := fun _ _ => "javalib.jar";
  prebuiltSpecsOf := fun p => (("classes:" ++ p)%string, ("resources:" ++ p)%string)
|}.

Definition sample_javaBase (p : javaProperties) : @javaBase sampleEnv :=
  @Build_javaBase sampleEnv p "" [] [] "".

(** An already built dependency exporting [cp], [classes] and [resources]. *)
Definition sample_built (cp : string) (classes resources : list string) :
    @blueprint_Module sampleEnv :=
  IsJavaDependency
    (@Prebuilt.Build_JavaPrebuilt sampleEnv {| Prebuilt.Srcs := [cp] |} cp classes resources).

Definition sample_ctx (device : bool) (deps : list (string * @blueprint_Module sampleEnv))
    (fails : @Stage sampleEnv -> bool) : @AndroidModuleContext sampleEnv :=
  @Build_AndroidModuleContext sampleEnv device "mod" "src" "out" deps (fun _ => "") fails.

Definition neverFails : @Stage sampleEnv -> bool := fun _ => false.

Definition jarjarFails : @Stage sampleEnv -> bool :=
  fun st => match st with JarJar _ _ => true | _ => false end.

Definition dexFails : @Stage sampleEnv -> bool :=
  fun st => match st with ClassesJarToDex _ _ => true | _ => false end.

(** [java_libs: ["x"], java_static_libs: ["x"]] *)
Definition ambiguous_properties : javaProperties :=
  {| Srcs := ["A.java"]; Resource_dirs := []; No_standard_libraries := true;
     Javacflags := []; Dxflags := []; Java_libs := ["x"]; Java_static_libs := ["x"];
     Manifest := ""; Sdk_version := ""; Dex := false; Jarjar_rules := "" |}.

(** A device library with one link-only and one merge dependency. *)
Definition twoLibs_properties (jarjar : string) : javaProperties :=
  {| Srcs := ["A.java"]; Resource_dirs := ["res"]; No_standard_libraries := false;
     Javacflags := []; Dxflags := []; Java_libs := ["a"]; Java_static_libs := ["b"];
     Manifest := ""; Sdk_version := ""; Dex := true; Jarjar_rules := jarjar |}.

Definition twoLibs_deps : list (string * @blueprint_Module sampleEnv) :=
  [ ("core-libart", sample_built "core-libart.jar" ["core.classes"] []);
    ("a", sample_built "a.jar" ["a.classes"] ["a.res"]);
    ("b", sample_built "b.jar" ["b.classes"] ["b.res"]) ].

(** What a visited dependency exports, read through the interface; a module
    that is not a JavaDependency exports nothing. *)
Definition implementsJavaDependency `{BuildEnv} (d : string * blueprint_Module) : bool :=
  match snd d with
  | IsJavaDependency _ => true
  | NotJavaDependency => false
  end.

Definition depClasspathFile `{BuildEnv} (d : string * blueprint_Module) : string :=
  match snd d with
  | IsJavaDependency javaDep => ClasspathFile javaDep
  | NotJavaDependency => ""
  end.

Definition depClassJarSpecs `{BuildEnv} (d : string * blueprint_Module) : list jarSpec :=
  match snd d with
  | IsJavaDependency javaDep => ClassJarSpecs javaDep
  | NotJavaDependency => []
  end.

Definition depResourceJarSpecs `{BuildEnv} (d : string * blueprint_Module) : list jarSpec :=
  match snd d with
  | IsJavaDependency javaDep => ResourceJarSpecs javaDep
  | NotJavaDependency => []
  end.

(** A name that [visitDep] cannot place: not link-only, not merge, not boot. *)
Definition undeclared `{BuildEnv} (j : javaBase) (ctx : AndroidModuleContext)
    (otherName : string) : Prop :=
  inList otherName (Java_libs (properties j)) = false /\
  inList otherName (Java_static_libs (properties j)) = false /\
  otherName <> BootClasspath j ctx.

(** The merge dependencies that [visitDep] treats as such: those whose name
    is not also in the link-only list. *)
Definition mergedOnly `{BuildEnv} (j : javaBase) (deps : list (string * blueprint_Module)) :
    list (string * blueprint_Module) :=
  filter (fun d => negb (inList (fst d) (Java_libs (properties j)))) deps.

(** The boot dependency that [AndroidDynamicDependencies] requests, if any. *)
Definition declaredBoot `{BuildEnv} (j : javaBase) (ctx : AndroidModuleContext) : list string :=
  if No_standard_libraries (properties j) then []
  else if String.eqb (BootClasspath j ctx) "" then [] else [BootClasspath j ctx].

(** The stages of the pipeline, by the transform they request. *)
Inductive stageKind :=
| Compile
| PrimaryMerge
| Rename
| Convert
| FinalMerge
| Split.

Definition kindOf `{BuildEnv} (st : Stage) : stageKind :=
  match st with
  | JavaToClasses _ _ _ => Compile
  | ClassesToJar _ _ => PrimaryMerge
  | JarJar _ _ => Rename
  | ClassesJarToDex _ _ => Convert
  | DexToJavaLib _ _ => FinalMerge
  | PrebuiltJarToClasses _ => Split
  end.

(** A transform of kind [k] has reported a failure in state [s]. *)
Definition reported `{BuildEnv} (k : stageKind) (s : ctxState) : Prop :=
  exists st, kindOf st = k /\ In (StageFailure st) (errors s).

(** This module's own outputs: the class jarSpec of the compile stage and
    the jarSpecs of its resource directories. *)
Definition ownClasses `{BuildEnv} (j : javaBase) (ctx : AndroidModuleContext)
    (classpath : list string) (bootClasspath : string) : jarSpec :=
  let '(flags, javacDeps) := javacInputs j classpath bootClasspath in
  classesOf (ExpandGlobs (PrefixPaths (Srcs (properties j)) (ModuleSrcDir ctx)))
            flags javacDeps.

Definition ownResources `{BuildEnv} (j : javaBase) : list jarSpec :=
  ResourceDirsToJarSpecs (Resource_dirs (properties j)).

(** [j.properties.Jarjar_rules = v] *)
Definition set_Jarjar_rules `{BuildEnv} (j : javaBase) (v : string) : javaBase :=
  set_properties j
    {| Srcs := Srcs (properties j); Resource_dirs := Resource_dirs (properties j);
       No_standard_libraries := No_standard_libraries (properties j);
       Javacflags := Javacflags (properties j); Dxflags := Dxflags (properties j);
       Java_libs := Java_libs (properties j);
       Java_static_libs := Java_static_libs (properties j);
       Manifest := Manifest (properties j); Sdk_version := Sdk_version (properties j);
       Dex := Dex (properties j); Jarjar_rules := v |}.

(** ** Loading properties

    Between a factory and the build actions, blueprint fills the property
    structs from the module definition.  That code is not part of java.go;
    a loader is a function [unpack], and it honours the struct tags when it
    leaves every field tagged [blueprint:"mutated"] as it found it. *)







(** ** How [visitDep] places a visited dependency

    The four branches of the visitor, as tests on a visited dependency: the
    order of the tests in the source makes them exclusive. *)

Definition isLinkOnlyDep `{BuildEnv} (j : javaBase) (d : string * blueprint_Module) : bool :=
  implementsJavaDependency d && inList (fst d) (Java_libs (properties j)).

Definition isMergeDep `{BuildEnv} (j : javaBase) (d : string * blueprint_Module) : bool :=
  implementsJavaDependency d
  && negb (inList (fst d) (Java_libs (properties j)))
  && inList (fst d) (Java_static_libs (properties j)).

Definition isBootDep `{BuildEnv} (j : javaBase) (ctx : AndroidModuleContext)
    (d : string * blueprint_Module) : bool :=
  implementsJavaDependency d
  && negb (inList (fst d) (Java_libs (properties j)))
  && negb (inList (fst d) (Java_static_libs (properties j)))
  && String.eqb (fst d) (BootClasspath j ctx).

Definition isUnknownDep `{BuildEnv} (j : javaBase) (ctx : AndroidModuleContext)
    (d : string * blueprint_Module) : bool :=
  implementsJavaDependency d
  && negb (inList (fst d) (Java_libs (properties j)))
  && negb (inList (fst d) (Java_static_libs (properties j)))
  && negb (String.eqb (fst d) (BootClasspath j ctx)).

(** The errors [collectDeps] reports: one for each visited module that is
    not a JavaDependency, in visit order. *)
Definition moduleTypeErrors `{BuildEnv} (deps : list (string * blueprint_Module)) :
    list moduleError :=
  map (fun d => UnknownDependencyModuleType (fst d))
      (filter (fun d => negb (implementsJavaDependency d)) deps).


(** Concrete inputs for the further properties. *)
Definition finalMergeFails : @Stage sampleEnv -> bool :=
  fun st => match st with DexToJavaLib _ _ => true | _ => false end.

(** A host library with one link-only dependency and no merge names. *)
Definition linkOnly_properties : javaProperties :=
  {| Srcs := ["A.java"]; Resource_dirs := ["res"]; No_standard_libraries := true;
     Javacflags := ["-g"]; Dxflags := ["--core-library"]; Java_libs := ["a"];
     Java_static_libs := []; Manifest := "MANIFEST.MF"; Sdk_version := ""; Dex := false;
     Jarjar_rules := "" |}.

(** * Properties *)

(** ** Basic facts *)

Lemma inList_In (s : string) (l : list string) : inList s l = true <-> In s l.
Proof.
  induction l as [|e l IH]; simpl.
  - split; [discriminate | tauto].
  - destruct (String.eqb_spec e s) as [->|Hne].
    + split; auto.
    + rewrite IH. split; [auto | intros [Heq|Hin]; [contradiction | exact Hin]].
Qed.

Lemma inList_false_not_In (s : string) (l : list string) :
  inList s l = false <-> ~ In s l.
Proof.
  rewrite <- inList_In. destruct (inList s l); split; intros H; congruence.
Qed.

Lemma inList_app (s : string) (l1 l2 : list string) :
  inList s (l1 ++ l2) = inList s l1 || inList s l2.
Proof.
  induction l1 as [|e l1 IH]; simpl; auto.
  destruct (String.eqb e s); auto.
Qed.

Lemma visitEach_app `{BuildEnv} {A : Type}
    (visit : A -> string -> blueprint_Module -> Action A)
    (l1 l2 : list (string * blueprint_Module)) (acc : A) (s : ctxState) :
  visitEach visit (l1 ++ l2) acc s = bind (visitEach visit l1 acc) (visitEach visit l2) s.
Proof.
  revert acc s. induction l1 as [|[n m] l1 IH]; intros acc s; simpl.
  - reflexivity.
  - unfold bind. destruct (visit acc n m s) as [[acc' s']|p]; [apply IH | reflexivity].
Qed.

(** ** BootClasspath *)

(** C5. [BootClasspath] depends only on the device flag of the context, on
    [Dex] and on [Sdk_version]; on a device it is "core-libart" for an empty
    sdk version, "android_stubs_current" for "current",
    "android_system_stubs_current" for "system_current" and "sdk_v" followed
    by the version otherwise; on the host it is "core-libart" when [Dex] is
    set and empty otherwise. *)
Theorem BootClasspath_policy `{BuildEnv} (j : javaBase) (ctx : AndroidModuleContext)
    (V : string) :
  Sdk_version (properties j) = V ->
  (forall (j' : javaBase) (ctx' : AndroidModuleContext),
      Device ctx' = Device ctx ->
      Dex (properties j') = Dex (properties j) ->
      Sdk_version (properties j') = V ->
      BootClasspath j' ctx' = BootClasspath j ctx) /\
  (Device ctx = true -> V = "" -> BootClasspath j ctx = "core-libart") /\
  (Device ctx = true -> V = "current" -> BootClasspath j ctx = "android_stubs_current") /\
  (Device ctx = true -> V = "system_current" ->
     BootClasspath j ctx = "android_system_stubs_current") /\
  (Device ctx = true -> V <> "" -> V <> "current" -> V <> "system_current" ->
     BootClasspath j ctx = ("sdk_v" ++ V)%string) /\
  (Device ctx = false -> Dex (properties j) = true -> BootClasspath j ctx = "core-libart") /\
  (Device ctx = false -> Dex (properties j) = false -> BootClasspath j ctx = "").
Proof.
  intros HV. unfold BootClasspath. rewrite HV.
  repeat split.
  - intros j' ctx' Hd Hx Hs. rewrite Hd, Hx, Hs. reflexivity.
  - intros -> ->. reflexivity.
  - intros -> ->. reflexivity.
  - intros -> ->. reflexivity.
  - intros -> H1 H2 H3.
    destruct (String.eqb_spec V ""); [contradiction|].
    destruct (String.eqb_spec V "current"); [contradiction|].
    destruct (String.eqb_spec V "system_current"); [contradiction|].
    reflexivity.
  - intros -> ->. reflexivity.
  - intros -> ->. reflexivity.
Qed.

Lemma BootClasspath_policy_witness :
  BootClasspath (sample_javaBase (twoLibs_properties "")) (sample_ctx true [] neverFails)
    = "core-libart".
Proof.
  exact (proj1 (proj2 (BootClasspath_policy (sample_javaBase (twoLibs_properties ""))
                         (sample_ctx true [] neverFails) "" eq_refl))
           eq_refl eq_refl).
Defined.

(** ** collectDeps *)

Lemma visitDep_link_only `{BuildEnv} (j : javaBase) (ctx : AndroidModuleContext)
    (acc : collected) (d : string * blueprint_Module) (s : ctxState) :
  implementsJavaDependency d = true ->
  inList (fst d) (Java_libs (properties j)) = true ->
  visitDep j ctx acc (fst d) (snd d) s =
    Returns (let '(cp, b, c, r) := acc in (cp ++ [depClasspathFile d], b, c, r), s).
Proof.
  destruct acc as [[[cp b] c] r], d as [n [M I javaDep|]]; simpl;
    unfold implementsJavaDependency, depClasspathFile; simpl; intros Hi Hl.
  - rewrite Hl. reflexivity.
  - discriminate.
Qed.

Lemma visitDep_merge `{BuildEnv} (j : javaBase) (ctx : AndroidModuleContext)
    (acc : collected) (d : string * blueprint_Module) (s : ctxState) :
  implementsJavaDependency d = true ->
  inList (fst d) (Java_libs (properties j)) = false ->
  inList (fst d) (Java_static_libs (properties j)) = true ->
  visitDep j ctx acc (fst d) (snd d) s =
    Returns (let '(cp, b, c, r) := acc in
             (cp ++ [depClasspathFile d], b,
              c ++ depClassJarSpecs d, r ++ depResourceJarSpecs d), s).
Proof.
  destruct acc as [[[cp b] c] r], d as [n [M I javaDep|]]; simpl;
    unfold implementsJavaDependency, depClasspathFile, depClassJarSpecs,
      depResourceJarSpecs; simpl; intros Hi Hl Hs.
  - rewrite Hl, Hs. reflexivity.
  - discriminate.
Qed.

Lemma visitDep_boot `{BuildEnv} (j : javaBase) (ctx : AndroidModuleContext)
    (acc : collected) (d : string * blueprint_Module) (s : ctxState) :
  implementsJavaDependency d = true ->
  inList (fst d) (Java_libs (properties j)) = false ->
  inList (fst d) (Java_static_libs (properties j)) = false ->
  fst d = BootClasspath j ctx ->
  visitDep j ctx acc (fst d) (snd d) s =
    Returns (let '(cp, b, c, r) := acc in (cp, depClasspathFile d, c, r), s).
Proof.
  destruct acc as [[[cp b] c] r], d as [n [M I javaDep|]]; simpl;
    unfold implementsJavaDependency, depClasspathFile; simpl; intros Hi Hl Hs Hb.
  - rewrite Hl, Hs. subst n. rewrite String.eqb_refl. reflexivity.
  - discriminate.
Qed.

Lemma visitDep_undeclared `{BuildEnv} (j : javaBase) (ctx : AndroidModuleContext)
    (acc : collected) (otherName : string) (M : Type) (I : JavaDependency M) (javaDep : M)
    (s : ctxState) :
  undeclared j ctx otherName ->
  visitDep j ctx acc otherName (IsJavaDependency javaDep) s =
    Panics (UnknownDependency otherName (ModuleName ctx)).
Proof.
  intros (Hl & Hs & Hb). destruct acc as [[[cp b] c] r]; simpl.
  rewrite Hl, Hs. destruct (String.eqb_spec otherName (BootClasspath j ctx)).
  - contradiction.
  - reflexivity.
Qed.

Lemma visitDep_panics_inv `{BuildEnv} (j : javaBase) (ctx : AndroidModuleContext)
    (acc : collected) (otherName : string) (module : blueprint_Module) (s : ctxState)
    (p : panicValue) :
  visitDep j ctx acc otherName module s = Panics p ->
  p = UnknownDependency otherName (ModuleName ctx) /\ undeclared j ctx otherName /\
  implementsJavaDependency (otherName, module) = true.
Proof.
  destruct acc as [[[cp b] c] r], module as [M I javaDep|]; simpl.
  - unfold undeclared, implementsJavaDependency; simpl.
    destruct (inList otherName (Java_libs (properties j))); [discriminate|].
    destruct (inList otherName (Java_static_libs (properties j))); [discriminate|].
    destruct (String.eqb_spec otherName (BootClasspath j ctx)); [discriminate|].
    unfold panic. intros [= <-]. auto.
  - discriminate.
Qed.

Lemma visitEach_link_only `{BuildEnv} (j : javaBase) (ctx : AndroidModuleContext)
    (deps : list (string * blueprint_Module)) :
  forall (cp : list string) (b : string) (c r : list jarSpec) (s : ctxState),
  Forall (fun d => implementsJavaDependency d = true /\
                   inList (fst d) (Java_libs (properties j)) = true) deps ->
  visitEach (visitDep j ctx) deps (cp, b, c, r) s =
    Returns ((cp ++ map depClasspathFile deps, b, c, r), s).
Proof.
  induction deps as [|d deps IH]; intros cp b c r s Hall; cbn [visitEach map].
  - rewrite app_nil_r. reflexivity.
  - inversion Hall as [|d' deps' [Hi Hl] Hrest]; subst.
    destruct d as [n m]. unfold bind.
    pose proof (visitDep_link_only j ctx (cp, b, c, r) (n, m) s Hi Hl) as E.
    cbn [fst snd] in E. rewrite E.
    rewrite IH by assumption. rewrite <- app_assoc. reflexivity.
Qed.

Lemma visitEach_merge `{BuildEnv} (j : javaBase) (ctx : AndroidModuleContext)
    (deps : list (string * blueprint_Module)) :
  forall (cp : list string) (b : string) (c r : list jarSpec) (s : ctxState),
  Forall (fun d => implementsJavaDependency d = true /\
                   inList (fst d) (Java_static_libs (properties j)) = true) deps ->
  visitEach (visitDep j ctx) deps (cp, b, c, r) s =
    Returns ((cp ++ map depClasspathFile deps, b,
              c ++ flat_map depClassJarSpecs (mergedOnly j deps),
              r ++ flat_map depResourceJarSpecs (mergedOnly j deps)), s).
Proof.
  induction deps as [|d deps IH]; intros cp b c r s Hall; cbn [visitEach map].
  - cbn. rewrite !app_nil_r. reflexivity.
  - inversion Hall as [|d' deps' [Hi Hs] Hrest]; subst.
    destruct d as [n m]. unfold bind, mergedOnly. cbn [filter fst].
    fold (mergedOnly j deps).
    destruct (inList n (Java_libs (properties j))) eqn:Hl; cbn [negb flat_map].
    + pose proof (visitDep_link_only j ctx (cp, b, c, r) (n, m) s Hi Hl) as E.
      cbn [fst snd] in E. rewrite E.
      rewrite IH by assumption. rewrite <- app_assoc. reflexivity.
    + pose proof (visitDep_merge j ctx (cp, b, c, r) (n, m) s Hi Hl Hs) as E.
      cbn [fst snd] in E. rewrite E.
      rewrite IH by assumption. rewrite <- !app_assoc. reflexivity.
Qed.

Lemma AndroidDynamicDependencies_eq `{BuildEnv} (j : javaBase) (ctx : AndroidModuleContext) :
  AndroidDynamicDependencies j ctx =
    declaredBoot j ctx ++ Java_libs (properties j) ++ Java_static_libs (properties j).
Proof.
  unfold AndroidDynamicDependencies, declaredBoot.
  destruct (No_standard_libraries (properties j)); simpl.
  - reflexivity.
  - destruct (String.eqb (BootClasspath j ctx) ""); simpl; reflexivity.
Qed.

Lemma Forall_named `{BuildEnv} (P : string -> Prop) (Q : string * blueprint_Module -> Prop)
    (deps : list (string * blueprint_Module)) (names : list string) :
  map fst deps = names ->
  Forall Q deps ->
  (forall n, In n names -> P n) ->
  Forall (fun d => Q d /\ P (fst d)) deps.
Proof.
  intros <- HQ HP. induction deps as [|d deps IH]; constructor.
  - inversion HQ; subst. split; [assumption | apply HP; left; reflexivity].
  - inversion HQ; subst. apply IH; [assumption | intros n Hn; apply HP; right; exact Hn].
Qed.

Lemma visitEach_undeclared `{BuildEnv} (j : javaBase) (ctx : AndroidModuleContext)
    (otherName : string) (M : Type) (I : JavaDependency M) (javaDep : M)
    (post pre : list (string * blueprint_Module)) :
  undeclared j ctx otherName ->
  forall (acc : collected) (s : ctxState),
  exists n,
    In n (map fst (pre ++ (otherName, IsJavaDependency javaDep) :: post)) /\
    undeclared j ctx n /\
    visitEach (visitDep j ctx) (pre ++ (otherName, IsJavaDependency javaDep) :: post) acc s =
      Panics (UnknownDependency n (ModuleName ctx)) /\
    (Forall (fun d => implementsJavaDependency d = true -> ~ undeclared j ctx (fst d)) pre ->
     n = otherName).
Proof.
  intros Hu. induction pre as [|[n0 m0] pre IH]; intros acc s.
  - exists otherName. cbn [app visitEach map fst]. unfold bind.
    rewrite (visitDep_undeclared j ctx acc otherName M I javaDep s Hu).
    repeat split; [left; reflexivity | apply Hu | apply Hu | apply Hu].
  - cbn [app visitEach map fst]. unfold bind.
    destruct (visitDep j ctx acc n0 m0 s) as [[acc' s']|p] eqn:E.
    + destruct (IH acc' s') as (n & Hin & Hn & Hp & Hfirst).
      exists n. repeat split; try apply Hn; [right; exact Hin | exact Hp |].
      intros Hall. apply Hfirst. inversion Hall; assumption.
    + apply visitDep_panics_inv in E. destruct E as (-> & Hn0 & Hi).
      exists n0. repeat split; try apply Hn0; [left; reflexivity |].
      intros Hall. inversion Hall as [|d l Hd Hl]; subst.
      exfalso. apply (Hd Hi). exact Hn0.
Qed.

(** C1 (amended). A resolved dependency whose name is in both [Java_libs] and
    [Java_static_libs] is classified as link-only: the visitor of
    [collectDeps] appends its classpath file to [classpath] and changes
    nothing else, neither the boot entry, nor the merged jarSpecs, nor the
    context; [AndroidDynamicDependencies] requests the name all the same. *)
Theorem ambiguous_name_classified_link_only `{BuildEnv} (j : javaBase)
    (ctx : AndroidModuleContext) (otherName : string) (M : Type) (I : JavaDependency M)
    (javaDep : M) (cp : list string) (b : string) (c r : list jarSpec) (s : ctxState) :
  inList otherName (Java_libs (properties j)) = true ->
  inList otherName (Java_static_libs (properties j)) = true ->
  In otherName (AndroidDynamicDependencies j ctx) /\
  visitDep j ctx (cp, b, c, r) otherName (IsJavaDependency javaDep) s =
    Returns ((cp ++ [ClasspathFile javaDep], b, c, r), s).
Proof.
  intros Hl Hs. split.
  - rewrite AndroidDynamicDependencies_eq. apply in_or_app. right.
    apply in_or_app. left. apply inList_In. exact Hl.
  - cbn [visitDep]. rewrite Hl. reflexivity.
Qed.

Lemma ambiguous_name_classified_link_only_witness :
  In "x" (AndroidDynamicDependencies (sample_javaBase ambiguous_properties)
            (sample_ctx true [] neverFails)) /\
  visitDep (sample_javaBase ambiguous_properties) (sample_ctx true [] neverFails)
      ([], "", [], []) "x" (sample_built "x.jar" ["X"] ["R"]) emptyState =
    Returns ((["x.jar"], "", [], []), emptyState).
Proof.
  exact (ambiguous_name_classified_link_only (sample_javaBase ambiguous_properties)
           (sample_ctx true [] neverFails) "x" _ _
           (@Prebuilt.Build_JavaPrebuilt sampleEnv {| Prebuilt.Srcs := ["x.jar"] |}
              "x.jar" ["X"] ["R"])
           [] "" [] [] emptyState eq_refl eq_refl).
Defined.

(** C1, as stated, fails: "x" is in both lists, and collection neither
    fails nor reports anything; the dependency lands on the classpath and
    its jarSpecs are not merged. *)
Lemma ambiguous_name_counterexample :
  inList "x" (Java_libs ambiguous_properties) = true /\
  inList "x" (Java_static_libs ambiguous_properties) = true /\
  collectDeps (sample_javaBase ambiguous_properties)
      (sample_ctx true [("x", sample_built "x.jar" ["X"] ["R"])] neverFails) emptyState =
    Returns ((["x.jar"], "", [], []), emptyState).
Proof.
  repeat split.
Qed.

(** C7. When a visited dependency implements JavaDependency and its name is
    neither in [Java_libs], nor in [Java_static_libs], nor the boot classpath
    name, [collectDeps] panics with an unknown-dependency value naming an
    undeclared dependency (this one, when no earlier one is undeclared), and
    so does [GenerateJavaBuildActions], which requests no transform. *)
Theorem undeclared_dependency_panics `{BuildEnv} (j : javaBase)
    (ctx : AndroidModuleContext) (pre post : list (string * blueprint_Module))
    (otherName : string) (M : Type) (I : JavaDependency M) (javaDep : M) (s : ctxState) :
  directDeps ctx = pre ++ (otherName, IsJavaDependency javaDep) :: post ->
  inList otherName (Java_libs (properties j)) = false ->
  inList otherName (Java_static_libs (properties j)) = false ->
  otherName <> BootClasspath j ctx ->
  exists n,
    In n (map fst (directDeps ctx)) /\
    undeclared j ctx n /\
    collectDeps j ctx s = Panics (UnknownDependency n (ModuleName ctx)) /\
    javaBase_GenerateJavaBuildActions j ctx s = Panics (UnknownDependency n (ModuleName ctx)) /\
    (Forall (fun d => implementsJavaDependency d = true -> ~ undeclared j ctx (fst d)) pre ->
     n = otherName).
Proof.
  intros Hdeps Hl Hs Hb.
  destruct (visitEach_undeclared j ctx otherName M I javaDep post pre (conj Hl (conj Hs Hb))
              ([], "", [], []) s) as (n & Hin & Hn & Hp & Hfirst).
  exists n. unfold javaBase_GenerateJavaBuildActions, bind, collectDeps, VisitDirectDeps.
  rewrite Hdeps, Hp. auto.
Qed.

Lemma undeclared_dependency_panics_witness :
  exists n,
    collectDeps (sample_javaBase (twoLibs_properties ""))
        (sample_ctx true (twoLibs_deps ++ [("z", sample_built "z.jar" [] [])]) neverFails)
        emptyState = Panics (UnknownDependency n "mod") /\
    n = "z".
Proof.
  destruct (undeclared_dependency_panics (sample_javaBase (twoLibs_properties ""))
              (sample_ctx true (twoLibs_deps ++ [("z", sample_built "z.jar" [] [])]) neverFails)
              twoLibs_deps [] "z" _ _
              (@Prebuilt.Build_JavaPrebuilt sampleEnv {| Prebuilt.Srcs := ["z.jar"] |}
                 "z.jar" [] [])
              emptyState eq_refl eq_refl eq_refl)
    as (n & _ & _ & Hp & _ & Hfirst).
  - discriminate.
  - exists n. split; [exact Hp|]. apply Hfirst.
    repeat constructor; intros _ (Hl & Hs & Hb); try discriminate.
    apply Hb. reflexivity.
Defined.

(** C2 (amended). When the direct dependencies visited are those
    [AndroidDynamicDependencies] requested, one visit for each entry of the
    list it returned and in the same order (a name requested twice is
    visited twice), all implement
    JavaDependency and the boot classpath name is not also listed in
    [Java_libs] or [Java_static_libs], the classpath returned by
    [collectDeps] is the classpath files of the link-only dependencies in
    declared order followed by those of the merge dependencies in declared
    order, one entry per name and nothing removed: its length is
    |Java_libs| + |Java_static_libs|.  The boot entry is not on the
    classpath; it is returned on its own as [bootClasspath]. *)
Theorem collectDeps_declared_order `{BuildEnv} (j : javaBase) (ctx : AndroidModuleContext)
    (s : ctxState) :
  map fst (directDeps ctx) = AndroidDynamicDependencies j ctx ->
  Forall (fun d => implementsJavaDependency d = true) (directDeps ctx) ->
  inList (BootClasspath j ctx)
         (Java_libs (properties j) ++ Java_static_libs (properties j)) = false ->
  exists bootDep libDeps staticDeps,
    directDeps ctx = bootDep ++ libDeps ++ staticDeps /\
    map fst bootDep = declaredBoot j ctx /\
    map fst libDeps = Java_libs (properties j) /\
    map fst staticDeps = Java_static_libs (properties j) /\
    collectDeps j ctx s =
      Returns ((map depClasspathFile (libDeps ++ staticDeps),
                match bootDep with [] => "" | d :: _ => depClasspathFile d end,
                flat_map depClassJarSpecs (mergedOnly j staticDeps),
                flat_map depResourceJarSpecs (mergedOnly j staticDeps)), s) /\
    length (map depClasspathFile (libDeps ++ staticDeps)) =
      length (Java_libs (properties j)) + length (Java_static_libs (properties j)).
Proof.
  intros Hnames Himpl Hboot.
  rewrite AndroidDynamicDependencies_eq in Hnames.
  apply map_eq_app in Hnames. destruct Hnames as (bootDep & rest & Hdeps & Hb & Hrest).
  apply map_eq_app in Hrest. destruct Hrest as (libDeps & staticDeps & -> & Hl & Hs).
  exists bootDep, libDeps, staticDeps.
  rewrite Hdeps in Himpl. apply Forall_app in Himpl. destruct Himpl as [Hib Hi].
  apply Forall_app in Hi. destruct Hi as [Hil His].
  rewrite inList_app in Hboot. apply orb_false_iff in Hboot. destruct Hboot as [Hbl Hbs].
  repeat split; auto.
  - unfold collectDeps, VisitDirectDeps. rewrite Hdeps.
    rewrite visitEach_app. unfold bind at 1.
    assert (Hlibs : Forall (fun d => implementsJavaDependency d = true /\
                                     inList (fst d) (Java_libs (properties j)) = true) libDeps).
    { apply (Forall_named (fun n => inList n (Java_libs (properties j)) = true)
               (fun d => implementsJavaDependency d = true) libDeps _ Hl Hil).
      intros n Hn. apply inList_In. exact Hn. }
    assert (Hstat : Forall (fun d => implementsJavaDependency d = true /\
                                     inList (fst d) (Java_static_libs (properties j)) = true)
                      staticDeps).
    { apply (Forall_named (fun n => inList n (Java_static_libs (properties j)) = true)
               (fun d => implementsJavaDependency d = true) staticDeps _ Hs His).
      intros n Hn. apply inList_In. exact Hn. }
    assert (Hbootvisit :
              visitEach (visitDep j ctx) bootDep ([], "", [], []) s =
                Returns (([], match bootDep with [] => "" | d :: _ => depClasspathFile d end,
                          [], []), s)).
    { unfold declaredBoot in Hb.
      destruct bootDep as [|d [|d' bootDep]].
      - reflexivity.
      - destruct (No_standard_libraries (properties j)); [discriminate|].
        destruct (String.eqb (BootClasspath j ctx) ""); [discriminate|].
        injection Hb as Hd. inversion Hib as [|? ? Hid _]; subst.
        destruct d as [n m]. cbn [visitEach]. unfold bind.
        cbn [fst] in Hd. subst n.
        pose proof (visitDep_boot j ctx ([], "", [], []) (BootClasspath j ctx, m) s
                      Hid Hbl Hbs eq_refl) as E.
        cbn [fst snd] in E. rewrite E. reflexivity.
      - destruct (No_standard_libraries (properties j)); [discriminate|].
        destruct (String.eqb (BootClasspath j ctx) ""); discriminate. }
    rewrite Hbootvisit. cbv beta iota.
    rewrite visitEach_app. unfold bind.
    rewrite (visitEach_link_only j ctx libDeps _ _ _ _ s Hlibs).
    rewrite (visitEach_merge j ctx staticDeps _ _ _ _ s Hstat).
    cbn [app]. rewrite map_app. reflexivity.
  - rewrite length_map, length_app, <- Hl, <- Hs, !length_map. reflexivity.
Qed.

Lemma collectDeps_declared_order_witness :
  collectDeps (sample_javaBase (twoLibs_properties "")) (sample_ctx true twoLibs_deps neverFails)
      emptyState =
    Returns ((["a.jar"; "b.jar"], "core-libart.jar", ["b.classes"], ["b.res"]), emptyState).
Proof.
  destruct (collectDeps_declared_order (sample_javaBase (twoLibs_properties ""))
              (sample_ctx true twoLibs_deps neverFails) emptyState)
    as (bootDep & libDeps & staticDeps & Hdeps & Hb & Hl & Hs & Hc & _).
  - reflexivity.
  - repeat constructor.
  - reflexivity.
  - destruct bootDep as [|d0 [|? ?]]; try discriminate Hb.
    destruct libDeps as [|d1 [|? ?]]; try discriminate Hl.
    destruct staticDeps as [|d2 [|? ?]]; try discriminate Hs.
    injection Hdeps as <- <- <-. exact Hc.
Defined.

(** C2, as stated, fails: with a boot entry, one link-only and one merge
    dependency, visited in declared order, the classpath has two entries,
    not three, and the boot entry is not its first element; and two
    dependencies that export the same path both stay on the classpath. *)
Lemma collectDeps_classpath_counterexample :
  map fst twoLibs_deps =
    AndroidDynamicDependencies (sample_javaBase (twoLibs_properties ""))
      (sample_ctx true twoLibs_deps neverFails) /\
  collectDeps (sample_javaBase (twoLibs_properties "")) (sample_ctx true twoLibs_deps neverFails)
      emptyState =
    Returns ((["a.jar"; "b.jar"], "core-libart.jar", ["b.classes"], ["b.res"]), emptyState) /\
  length ["a.jar"; "b.jar"] <>
    1 + length (Java_libs (twoLibs_properties ""))
      + length (Java_static_libs (twoLibs_properties "")) /\
  collectDeps (sample_javaBase (twoLibs_properties ""))
      (sample_ctx true [("a", sample_built "same.jar" [] []);
                        ("b", sample_built "same.jar" [] [])] neverFails)
      emptyState =
    Returns ((["same.jar"; "same.jar"], "", [], []), emptyState).
Proof.
  repeat split. discriminate.
Qed.

(** ** GenerateJavaBuildActions *)

Ltac unfold_pipeline :=
  unfold ownClasses, javaBase_GenerateJavaBuildActions, dexAndInstall, TransformJavaToClasses,
    TransformClassesToJar, TransformJarJar, TransformClassesJarToDex, TransformDexToJavaLib,
    ctx_InstallFileName, request, ModuleErrorf, Failed, bind, ret.

Ltac reduce_state He :=
  cbn beta iota zeta delta [errors rules installs app fst snd properties
                            set_classJarSpecs set_resourceJarSpecs set_classpathFile
                            set_installFile];
  rewrite ?He;
  cbn beta iota zeta delta [errors rules installs app fst snd].

(** Case analysis along the pipeline, in the order of the source: compile,
    primary merge, jarjar (when rules are given), dex (when [Dex] is set). *)
Ltac split_convert He :=
  destruct (Dex _) eqn:Edex; reduce_state He;
  [ destruct (stageFails _ (ClassesJarToDex _ _)) eqn:Econvert; reduce_state He;
    [ | destruct (stageFails _ (DexToJavaLib _ _)) eqn:Efinal; reduce_state He ]
  | ].

Ltac split_stages He :=
  reduce_state He;
  destruct (stageFails _ (JavaToClasses _ _ _)) eqn:Ecompile; reduce_state He;
  [ | destruct (stageFails _ (ClassesToJar _ _)) eqn:Emerge; reduce_state He;
      [ | destruct (nonEmpty (Jarjar_rules _)) eqn:Ejarjar; reduce_state He;
          [ destruct (stageFails _ (JarJar _ _)) eqn:Erename; reduce_state He;
            [ | split_convert He ]
          | split_convert He ] ] ].

(** What [reported] says of a state whose errors are known. *)
Ltac inv_reported H :=
  let st := fresh "st" in
  let Hk := fresh "Hk" in
  let Hin := fresh "Hin" in
  destruct H as (st & Hk & Hin);
  cbn [errors In] in Hin;
  repeat (destruct Hin as [Hin|Hin];
          [injection Hin as <-; cbn [kindOf] in Hk; try discriminate Hk|]);
  try contradiction.

Ltac show_reported :=
  eexists; split; [| cbn [errors In]; left; reflexivity]; reflexivity.

Lemma nonEmpty_true (x : string) : nonEmpty x = true <-> x <> "".
Proof.
  unfold nonEmpty. destruct (String.eqb_spec x ""); simpl; split; congruence.
Qed.

(** C4 (amended). In a run whose collection reported nothing: when the
    compile stage reports a failure, or the primary merge does, no later
    stage is requested and the module is left as it was, so nothing is
    published; when the rename stage reports a failure, no later stage is
    requested and the classpath file is not published, but the class and
    resource jarSpecs already are; when the conversion to dex reports a
    failure, no later stage is requested and nothing is installed, but the
    classpath file and both jarSpec lists already are published. *)
Theorem stage_failure_halts_pipeline `{BuildEnv} (j : javaBase) (ctx : AndroidModuleContext)
    (s s1 : ctxState) (cp : list string) (boot : string) (cjs rjs : list jarSpec) :
  collectDeps j ctx s = Returns ((cp, boot, cjs, rjs), s1) ->
  errors s1 = [] ->
  exists j' s' new,
    javaBase_GenerateJavaBuildActions j ctx s = Returns (j', s') /\
    rules s' = rules s1 ++ new /\
    (reported Compile s' -> map kindOf new = [Compile] /\ j' = j) /\
    (reported PrimaryMerge s' -> map kindOf new = [Compile; PrimaryMerge] /\ j' = j) /\
    (reported Rename s' ->
       map kindOf new = [Compile; PrimaryMerge; Rename] /\
       j' = set_resourceJarSpecs (set_classJarSpecs j (ownClasses j ctx cp boot :: cjs))
              (ownResources j ++ rjs)) /\
    (reported Convert s' ->
       map kindOf new =
         [Compile; PrimaryMerge]
           ++ (if nonEmpty (Jarjar_rules (properties j)) then [Rename] else [])
           ++ [Convert] /\
       installs s' = installs s1 /\
       exists classesJar flags,
         last new (JarJar "" "") = ClassesJarToDex classesJar flags /\
         j' = set_classpathFile
                (set_resourceJarSpecs (set_classJarSpecs j (ownClasses j ctx cp boot :: cjs))
                   (ownResources j ++ rjs))
                classesJar).
Proof.
  intros Hc He. unfold_pipeline. rewrite Hc.
  destruct (javacInputs j cp boot) as [flags javacDeps].
  split_stages He.
  all: eexists; eexists; eexists.
  all: split; [reflexivity|].
  all: split; [cbn [rules]; rewrite <- ?app_assoc; reflexivity|].
  all: split; [|split; [|split]]; intros Hrep; inv_reported Hrep.
  all: try (split; reflexivity).
  all: split; [reflexivity|]; split; [reflexivity|].
  all: do 2 eexists; split; reflexivity.
Qed.

Lemma stage_failure_halts_pipeline_witness :
  exists j' s' new,
    javaBase_GenerateJavaBuildActions (sample_javaBase (twoLibs_properties "rules.txt"))
        (sample_ctx true twoLibs_deps jarjarFails) emptyState = Returns (j', s') /\
    rules s' = new /\
    map kindOf new = [Compile; PrimaryMerge; Rename] /\
    classpathFile j' = "" /\
    classJarSpecs j' = ["classes.list"; "b.classes"].
Proof.
  destruct (stage_failure_halts_pipeline (sample_javaBase (twoLibs_properties "rules.txt"))
              (sample_ctx true twoLibs_deps jarjarFails) emptyState emptyState
              ["a.jar"; "b.jar"] "core-libart.jar" ["b.classes"] ["b.res"]
              eq_refl eq_refl)
    as (j' & s' & new & Hrun & Hrules & _ & _ & Hrename & _).
  exists j', s', new.
  destruct Hrename as [Hkinds ->].
  - vm_compute in Hrun. injection Hrun as _ <-. show_reported.
  - repeat split; assumption.
Defined.

(** C4, as stated, fails: when the rename stage fails, the class and
    resource jarSpecs of a fresh module are already published; when the
    conversion to dex fails, the classpath file is published too. *)
Lemma stage_failure_counterexample :
  match javaBase_GenerateJavaBuildActions (sample_javaBase (twoLibs_properties "rules.txt"))
          (sample_ctx true twoLibs_deps jarjarFails) emptyState with
  | Returns (j', s') =>
      errors s' = [StageFailure (JarJar "classes-full-debug.jar" "src/rules.txt")] /\
      map kindOf (rules s') = [Compile; PrimaryMerge; Rename] /\
      @ClasspathFile sampleEnv _ _ j' = "" /\
      @ClassJarSpecs sampleEnv _ _ j' = ["classes.list"; "b.classes"] /\
      @ResourceJarSpecs sampleEnv _ _ j' = ["res/res"; "b.res"]
  | Panics _ => False
  end /\
  match javaBase_GenerateJavaBuildActions (sample_javaBase (twoLibs_properties "rules.txt"))
          (sample_ctx true twoLibs_deps dexFails) emptyState with
  | Returns (j', s') =>
      errors s' <> [] /\
      map kindOf (rules s') = [Compile; PrimaryMerge; Rename; Convert] /\
      @ClasspathFile sampleEnv _ _ j' = "classes-jarjar.jar" /\
      @ClassJarSpecs sampleEnv _ _ j' = ["classes.list"; "b.classes"] /\
      @ResourceJarSpecs sampleEnv _ _ j' = ["res/res"; "b.res"]
  | Panics _ => False
  end.
Proof.
  split; cbv; repeat split; discriminate.
Qed.

(** C3 (amended). In a run whose collection reported nothing and in which
    neither the compile stage nor the primary merge reports a failure, the
    class jarSpecs a module exports are its own class jarSpec followed by the
    class jarSpecs collected from its merge dependencies, and the resource
    jarSpecs it exports are those of its own resource directories followed
    by the resource jarSpecs collected from its merge dependencies: what a
    module merges, it exports again to its dependents. *)
Theorem exported_jarSpecs_include_merged `{BuildEnv} (j : javaBase)
    (ctx : AndroidModuleContext) (s s1 : ctxState) (cp : list string) (boot : string)
    (cjs rjs : list jarSpec) :
  collectDeps j ctx s = Returns ((cp, boot, cjs, rjs), s1) ->
  errors s1 = [] ->
  exists j' s',
    javaBase_GenerateJavaBuildActions j ctx s = Returns (j', s') /\
    (~ reported Compile s' -> ~ reported PrimaryMerge s' ->
     ClassJarSpecs j' = ownClasses j ctx cp boot :: cjs /\
     ResourceJarSpecs j' = ownResources j ++ rjs).
Proof.
  intros Hc He. unfold_pipeline. rewrite Hc.
  destruct (javacInputs j cp boot) as [flags javacDeps].
  split_stages He.
  all: eexists; eexists; split; [reflexivity|].
  all: intros Hcompile Hmerge.
  all: try (exfalso; apply Hcompile; show_reported).
  all: try (exfalso; apply Hmerge; show_reported).
  all: split; reflexivity.
Qed.

Lemma exported_jarSpecs_include_merged_witness :
  exists j' s',
    javaBase_GenerateJavaBuildActions (sample_javaBase (twoLibs_properties ""))
        (sample_ctx true twoLibs_deps neverFails) emptyState = Returns (j', s') /\
    @ClassJarSpecs sampleEnv _ _ j' = ["classes.list"; "b.classes"] /\
    @ResourceJarSpecs sampleEnv _ _ j' = ["res/res"; "b.res"].
Proof.
  destruct (exported_jarSpecs_include_merged (sample_javaBase (twoLibs_properties ""))
              (sample_ctx true twoLibs_deps neverFails) emptyState emptyState
              ["a.jar"; "b.jar"] "core-libart.jar" ["b.classes"] ["b.res"] eq_refl eq_refl)
    as (j' & s' & Hrun & Hexported).
  exists j', s'. split; [exact Hrun|].
  assert (He : errors s' = []) by (vm_compute in Hrun; injection Hrun as _ <-; reflexivity).
  apply Hexported; intros (st & _ & Hin); rewrite He in Hin; exact Hin.
Defined.

(** C3, as stated, fails: a module with the merge dependency "b" exports
    the class and resource jarSpecs of "b" after its own. *)
Lemma exported_jarSpecs_counterexample :
  match javaBase_GenerateJavaBuildActions (sample_javaBase (twoLibs_properties ""))
          (sample_ctx true twoLibs_deps neverFails) emptyState with
  | Returns (j', s') =>
      errors s' = [] /\
      @ClassJarSpecs sampleEnv _ _ j' = ["classes.list"; "b.classes"] /\
      @ClassJarSpecs sampleEnv _ _ j' <>
        [ownClasses (sample_javaBase (twoLibs_properties ""))
           (sample_ctx true twoLibs_deps neverFails) ["a.jar"; "b.jar"] "core-libart.jar"] /\
      @ResourceJarSpecs sampleEnv _ _ j' = ["res/res"; "b.res"] /\
      @ResourceJarSpecs sampleEnv _ _ j' <>
        ownResources (sample_javaBase (twoLibs_properties ""))
  | Panics _ => False
  end.
Proof.
  cbv. repeat split; discriminate.
Qed.

(** C6. In a run whose collection reported nothing, the jarSpecs handed to
    the primary merge are, in this order: the module's own class jarSpec, the
    class jarSpecs of its merge dependencies, the jarSpecs of its own
    resource directories, the resource jarSpecs of its merge dependencies.
    No other list is handed to a primary merge, and this one is, as the
    second transform of the run, unless the compile stage reports a
    failure. *)
Theorem primary_merge_input_order `{BuildEnv} (j : javaBase) (ctx : AndroidModuleContext)
    (s s1 : ctxState) (cp : list string) (boot : string) (cjs rjs : list jarSpec) :
  collectDeps j ctx s = Returns ((cp, boot, cjs, rjs), s1) ->
  errors s1 = [] ->
  exists j' s' new,
    javaBase_GenerateJavaBuildActions j ctx s = Returns (j', s') /\
    rules s' = rules s1 ++ new /\
    (forall jarSpecs manifest,
        In (ClassesToJar jarSpecs manifest) new ->
        jarSpecs = [ownClasses j ctx cp boot] ++ cjs ++ ownResources j ++ rjs) /\
    (~ reported Compile s' ->
     exists manifest,
       nth_error new 1 =
         Some (ClassesToJar ([ownClasses j ctx cp boot] ++ cjs ++ ownResources j ++ rjs) manifest)).
Proof.
  intros Hc He. unfold_pipeline. rewrite Hc.
  destruct (javacInputs j cp boot) as [flags javacDeps].
  split_stages He.
  all: eexists; eexists; eexists.
  all: split; [reflexivity|].
  all: split; [cbn [rules]; rewrite <- ?app_assoc; reflexivity|].
  all: split;
    [| intros Hcompile; try (exfalso; apply Hcompile; show_reported);
       eexists; reflexivity].
  all: intros jarSpecs manifest Hin; cbn [app In] in Hin.
  all: repeat (destruct Hin as [Hin|Hin]; [try discriminate Hin|]); try contradiction.
  all: injection Hin as <- _; reflexivity.
Qed.

Lemma primary_merge_input_order_witness :
  exists j' s' new manifest,
    javaBase_GenerateJavaBuildActions (sample_javaBase (twoLibs_properties ""))
        (sample_ctx true twoLibs_deps neverFails) emptyState = Returns (j', s') /\
    rules s' = new /\
    nth_error new 1 =
      Some (@ClassesToJar sampleEnv ["classes.list"; "b.classes"; "res/res"; "b.res"]
              manifest).
Proof.
  destruct (primary_merge_input_order (sample_javaBase (twoLibs_properties ""))
              (sample_ctx true twoLibs_deps neverFails) emptyState emptyState
              ["a.jar"; "b.jar"] "core-libart.jar" ["b.classes"] ["b.res"] eq_refl eq_refl)
    as (j' & s' & new & Hrun & Hrules & _ & Hsecond).
  assert (He : errors s' = []) by (vm_compute in Hrun; injection Hrun as _ <-; reflexivity).
  destruct Hsecond as [manifest Hnth].
  - intros (st & _ & Hin). rewrite He in Hin. exact Hin.
  - exists j', s', new, manifest. repeat split; assumption.
Defined.

Lemma visitEach_ext `{BuildEnv} {A : Type}
    (visit visit' : A -> string -> blueprint_Module -> Action A)
    (deps : list (string * blueprint_Module)) :
  (forall acc n m s, visit acc n m s = visit' acc n m s) ->
  forall acc s, visitEach visit deps acc s = visitEach visit' deps acc s.
Proof.
  intros Hext. induction deps as [|[n m] deps IH]; intros acc s; cbn [visitEach].
  - reflexivity.
  - unfold bind. rewrite Hext. destruct (visit' acc n m s) as [[acc' s']|p]; auto.
Qed.

(** Collection does not look at [Jarjar_rules]. *)
Lemma collectDeps_set_Jarjar_rules `{BuildEnv} (j : javaBase) (ctx : AndroidModuleContext)
    (v : string) (s : ctxState) :
  collectDeps (set_Jarjar_rules j v) ctx s = collectDeps j ctx s.
Proof.
  unfold collectDeps, VisitDirectDeps. apply visitEach_ext.
  intros acc n m s0. reflexivity.
Qed.

(** C9. Take a descriptor with a rename-rule file and the same descriptor
    without one, and run both in the same context.  Either both runs panic
    in collection with the same value, or both return, and then the exported
    class jarSpecs are equal and the exported resource jarSpecs are equal;
    when both runs end without error, the classpath file exported with the
    rules is the output of jarjar on the classpath file exported without. *)
Theorem rename_keeps_exported_jarSpecs `{BuildEnv} (j : javaBase)
    (ctx : AndroidModuleContext) (s : ctxState) (rulesFile : string) :
  rulesFile <> "" ->
  match javaBase_GenerateJavaBuildActions (set_Jarjar_rules j rulesFile) ctx s,
        javaBase_GenerateJavaBuildActions (set_Jarjar_rules j "") ctx s with
  | Returns (j1, s1), Returns (j2, s2) =>
      ClassJarSpecs j1 = ClassJarSpecs j2 /\
      ResourceJarSpecs j1 = ResourceJarSpecs j2 /\
      (errors s1 = [] -> errors s2 = [] ->
       ClasspathFile j1 =
         jarjarOf (ClasspathFile j2) (filepath_Join (ModuleSrcDir ctx) rulesFile))
  | Panics p1, Panics p2 => p1 = p2
  | _, _ => False
  end.
Proof.
  intros Hrules. apply nonEmpty_true in Hrules.
  unfold javaBase_GenerateJavaBuildActions, bind.
  rewrite !collectDeps_set_Jarjar_rules.
  destruct (collectDeps j ctx s) as [[[[[cp boot] cjs] rjs] s1]|p]; [|reflexivity].
  change (javacInputs (set_Jarjar_rules j rulesFile) cp boot) with (javacInputs j cp boot).
  change (javacInputs (set_Jarjar_rules j "") cp boot) with (javacInputs j cp boot).
  destruct (javacInputs j cp boot) as [flags javacDeps].
  unfold_pipeline.
  cbn beta iota zeta delta [properties set_Jarjar_rules set_properties Srcs Resource_dirs
    Manifest Jarjar_rules Dex Dxflags classpathFile classJarSpecs resourceJarSpecs
    installFile set_classJarSpecs set_resourceJarSpecs set_classpathFile set_installFile
    errors rules installs app fst snd].
  rewrite Hrules. change (nonEmpty "") with false. cbv iota.
  destruct (errors s1) as [|e es] eqn:He.
  - destruct (stageFails _ (JavaToClasses _ _ _)) eqn:Ecompile; reduce_state He;
      [repeat split; discriminate|].
    destruct (stageFails _ (ClassesToJar _ _)) eqn:Emerge; reduce_state He;
      [repeat split; discriminate|].
    destruct (stageFails _ (JarJar _ _)) eqn:Erename; reduce_state He;
      destruct (Dex _) eqn:Edex; reduce_state He;
      repeat match goal with
             | |- context [stageFails ?c ?st] =>
                 destruct (stageFails c st) eqn:?; reduce_state He
             end;
      repeat split; intros; try discriminate; reflexivity.
  - destruct (stageFails _ (JavaToClasses _ _ _)) eqn:Ecompile; reduce_state He;
      repeat split; discriminate.
Qed.

Lemma rename_keeps_exported_jarSpecs_witness :
  match javaBase_GenerateJavaBuildActions
          (set_Jarjar_rules (sample_javaBase (twoLibs_properties "")) "rules.txt")
          (sample_ctx true twoLibs_deps neverFails) emptyState,
        javaBase_GenerateJavaBuildActions
          (set_Jarjar_rules (sample_javaBase (twoLibs_properties "")) "")
          (sample_ctx true twoLibs_deps neverFails) emptyState with
  | Returns (j1, s1), Returns (j2, s2) =>
      @ClassJarSpecs sampleEnv _ _ j1 = @ClassJarSpecs sampleEnv _ _ j2 /\
      @ResourceJarSpecs sampleEnv _ _ j1 = @ResourceJarSpecs sampleEnv _ _ j2 /\
      (errors s1 = [] -> errors s2 = [] ->
       @ClasspathFile sampleEnv _ _ j1 =
         @jarjarOf sampleEnv (@ClasspathFile sampleEnv _ _ j2)
           (@filepath_Join sampleEnv "src" "rules.txt"))
  | Panics p1, Panics p2 => p1 = p2
  | _, _ => False
  end.
Proof.
  apply (rename_keeps_exported_jarSpecs (sample_javaBase (twoLibs_properties ""))
           (sample_ctx true twoLibs_deps neverFails) emptyState "rules.txt").
  discriminate.
Defined.

(** ** Factories and the Dex flag *)

Lemma pipeline_preserves_properties `{BuildEnv} (j j' : javaBase)
    (ctx : AndroidModuleContext) (s s' : ctxState) :
  javaBase_GenerateJavaBuildActions j ctx s = Returns (j', s') ->
  properties j' = properties j.
Proof.
  unfold javaBase_GenerateJavaBuildActions, bind.
  destruct (collectDeps j ctx s) as [[[[[cp boot] cjs] rjs] s1]|p]; [|discriminate].
  destruct (javacInputs j cp boot) as [flags javacDeps].
  unfold_pipeline.
  destruct (errors s1) as [|e es] eqn:He.
  - split_stages He; intros [= <- <-]; reflexivity.
  - reduce_state He.
    destruct (stageFails _ (JavaToClasses _ _ _)); reduce_state He;
      intros [= <- <-]; reflexivity.
Qed.

Lemma binary_preserves_properties `{BuildEnv} (b b' : JavaBinary)
    (ctx : AndroidModuleContext) (s s' : ctxState) :
  GenerateJavaBuildActions b ctx s = Returns (b', s') ->
  properties (JavaLibrary_javaBase (JavaBinary_JavaLibrary b')) =
    properties (JavaLibrary_javaBase (JavaBinary_JavaLibrary b)).
Proof.
  cbn [GenerateJavaBuildActions JavaBinary_JavaModuleType JavaLibrary_JavaModuleType].
  unfold bind at 1 2.
  destruct (javaBase_GenerateJavaBuildActions _ ctx s) as [[j1 s1]|p] eqn:Erun;
    [|discriminate].
  apply pipeline_preserves_properties in Erun.
  unfold ret, ctx_InstallFile, bind. intros [= <- <-]. exact Erun.
Qed.






(** ** Java prebuilts *)




(** * Further properties *)

(** ** collectDeps on any visit sequence *)

Lemma last_cons_default {A : Type} (a d : A) (l : list A) : last (a :: l) d = last l a.
Proof.
  revert a d. induction l as [|x l IH]; intros a d.
  - reflexivity.
  - change (last (a :: x :: l) d) with (last (x :: l) d).
    rewrite (IH x d), (IH x a). reflexivity.
Qed.

Lemma visitDep_placed `{BuildEnv} (j : javaBase) (ctx : AndroidModuleContext)
    (d : string * blueprint_Module) (cp : list string) (b : string) (c r : list jarSpec)
    (s : ctxState) :
  visitDep j ctx (cp, b, c, r) (fst d) (snd d) s =
    if isUnknownDep j ctx d then Panics (UnknownDependency (fst d) (ModuleName ctx))
    else
      Returns ((cp ++ (if isLinkOnlyDep j d || isMergeDep j d then [depClasspathFile d]
                       else []),
                if isBootDep j ctx d then depClasspathFile d else b,
                c ++ (if isMergeDep j d then depClassJarSpecs d else []),
                r ++ (if isMergeDep j d then depResourceJarSpecs d else [])),
               {| errors := errors s ++ moduleTypeErrors [d];
                  rules := rules s; installs := installs s |}).
Proof.
  destruct d as [n [M I javaDep|]], s as [errs rls ins];
    unfold isUnknownDep, isLinkOnlyDep, isMergeDep, isBootDep, moduleTypeErrors,
      implementsJavaDependency, depClasspathFile, depClassJarSpecs, depResourceJarSpecs;
    cbn [fst snd visitDep andb orb negb filter map errors rules installs].
  - destruct (inList n (Java_libs (properties j)));
      [cbn; rewrite !app_nil_r; reflexivity|].
    destruct (inList n (Java_static_libs (properties j)));
      [cbn; rewrite !app_nil_r; reflexivity|].
    destruct (String.eqb n (BootClasspath j ctx)); cbn; rewrite ?app_nil_r; reflexivity.
  - cbn. rewrite !app_nil_r. reflexivity.
Qed.

Lemma visitEach_placed `{BuildEnv} (j : javaBase) (ctx : AndroidModuleContext)
    (deps : list (string * blueprint_Module)) :
  forall (cp : list string) (b : string) (c r : list jarSpec) (s : ctxState),
  visitEach (visitDep j ctx) deps (cp, b, c, r) s =
    match find (isUnknownDep j ctx) deps with
    | Some d => Panics (UnknownDependency (fst d) (ModuleName ctx))
    | None =>
        Returns ((cp ++ map depClasspathFile
                          (filter (fun d => isLinkOnlyDep j d || isMergeDep j d) deps),
                  last (map depClasspathFile (filter (isBootDep j ctx) deps)) b,
                  c ++ flat_map depClassJarSpecs (filter (isMergeDep j) deps),
                  r ++ flat_map depResourceJarSpecs (filter (isMergeDep j) deps)),
                 {| errors := errors s ++ moduleTypeErrors deps;
                    rules := rules s; installs := installs s |})
    end.
Proof.
  induction deps as [|d deps IH]; intros cp b c r s.
  - destruct s as [errs rls ins]. cbn. rewrite !app_nil_r. reflexivity.
  - destruct d as [n m] eqn:Ed. cbn [visitEach]. unfold bind.
    pose proof (visitDep_placed j ctx d cp b c r s) as Hstep.
    rewrite Ed in Hstep. cbn [fst snd] in Hstep. rewrite Hstep. clear Hstep.
    cbn [find]. destruct (isUnknownDep j ctx (n, m)) eqn:Eu; [reflexivity|].
    rewrite IH. destruct (find (isUnknownDep j ctx) deps) as [d'|]; [reflexivity|].
    cbn [filter errors rules installs].
    unfold moduleTypeErrors. cbn [filter].
    destruct (isLinkOnlyDep j (n, m) || isMergeDep j (n, m));
      destruct (isBootDep j ctx (n, m));
      destruct (isMergeDep j (n, m));
      destruct (negb (implementsJavaDependency (n, m)));
      cbn [map flat_map app]; rewrite ?app_nil_r, <- ?app_assoc, ?last_cons_default;
      reflexivity.
Qed.

(** X1. When no visited JavaDependency is unknown, [collectDeps] returns,
    whatever the visit order: the classpath holds the classpath files of
    the link-only and merge dependencies in visit order; the boot entry is
    the classpath file of the last visited boot dependency (empty when
    there is none); the merged class and resource jarSpecs are those of the
    merge dependencies, concatenated in visit order. *)
Theorem collectDeps_known_dependencies `{BuildEnv} (j : javaBase)
    (ctx : AndroidModuleContext) (s : ctxState) :
  find (isUnknownDep j ctx) (directDeps ctx) = None ->
  exists s',
    collectDeps j ctx s =
      Returns ((map depClasspathFile
                  (filter (fun d => isLinkOnlyDep j d || isMergeDep j d) (directDeps ctx)),
                last (map depClasspathFile (filter (isBootDep j ctx) (directDeps ctx))) "",
                flat_map depClassJarSpecs (filter (isMergeDep j) (directDeps ctx)),
                flat_map depResourceJarSpecs (filter (isMergeDep j) (directDeps ctx))),
               s').
Proof.
  intros Hfind. unfold collectDeps, VisitDirectDeps.
  rewrite visitEach_placed, Hfind. eexists. reflexivity.
Qed.

Lemma collectDeps_known_dependencies_witness :
  exists s',
    collectDeps (sample_javaBase (twoLibs_properties ""))
        (sample_ctx true (rev twoLibs_deps ++ [("core-libart", sample_built "late.jar" [] [])])
           neverFails) emptyState =
      Returns ((["b.jar"; "a.jar"], "late.jar", ["b.classes"], ["b.res"]), s').
Proof.
  apply (collectDeps_known_dependencies (sample_javaBase (twoLibs_properties ""))
           (sample_ctx true (rev twoLibs_deps ++ [("core-libart", sample_built "late.jar" [] [])])
              neverFails) emptyState).
  reflexivity.
Defined.

(** X2. Whenever [collectDeps] returns, it has requested no transform and
    no install, and it has reported exactly one error for each visited
    module that is not a JavaDependency, in visit order, after the errors
    already there. *)
Theorem collectDeps_reports_module_types `{BuildEnv} (j : javaBase)
    (ctx : AndroidModuleContext) (s s' : ctxState) (x : collected) :
  collectDeps j ctx s = Returns (x, s') ->
  rules s' = rules s /\
  installs s' = installs s /\
  errors s' =
    errors s ++ map (fun d => UnknownDependencyModuleType (fst d))
                    (filter (fun d => negb (implementsJavaDependency d)) (directDeps ctx)).
Proof.
  unfold collectDeps, VisitDirectDeps. rewrite visitEach_placed.
  destruct (find (isUnknownDep j ctx) (directDeps ctx)); [discriminate|].
  intros [= _ <-]. repeat split.
Qed.

Lemma collectDeps_reports_module_types_witness :
  exists x s',
    collectDeps (sample_javaBase (twoLibs_properties ""))
        (sample_ctx true [("a", NotJavaDependency); ("b", sample_built "b.jar" [] []);
                          ("c", NotJavaDependency)] neverFails) emptyState =
      Returns (x, s') /\
    rules s' = [] /\
    errors s' = [UnknownDependencyModuleType "a"; UnknownDependencyModuleType "c"].
Proof.
  do 2 eexists. split; [reflexivity|].
  destruct (collectDeps_reports_module_types
              (sample_javaBase (twoLibs_properties ""))
              (sample_ctx true [("a", NotJavaDependency); ("b", sample_built "b.jar" [] []);
                                ("c", NotJavaDependency)] neverFails)
              emptyState _ _ eq_refl) as (Hr & _ & He).
  split; [exact Hr | exact He].
Defined.

Lemma declared_name_placed `{BuildEnv} (j : javaBase) (ctx : AndroidModuleContext)
    (d : string * blueprint_Module) :
  In (fst d) (AndroidDynamicDependencies j ctx) -> isUnknownDep j ctx d = false.
Proof.
  rewrite AndroidDynamicDependencies_eq. unfold isUnknownDep, declaredBoot.
  intros Hin. apply in_app_or in Hin. destruct Hin as [Hin|Hin].
  - assert (Hb : fst d = BootClasspath j ctx).
    { destruct (No_standard_libraries (properties j)); [contradiction|].
      destruct (String.eqb (BootClasspath j ctx) ""); [contradiction|].
      destruct Hin as [<-|[]]. reflexivity. }
    rewrite Hb, String.eqb_refl. cbn. rewrite !andb_false_r. reflexivity.
  - apply in_app_or in Hin. destruct Hin as [Hin|Hin]; apply inList_In in Hin; rewrite Hin;
      cbn; rewrite ?andb_false_r; reflexivity.
Qed.

(** X3. Declaration and collection agree: when every visited JavaDependency
    carries a name that [AndroidDynamicDependencies] requested, in any
    order and any number of times, [collectDeps] does not panic. *)
Theorem declared_dependencies_never_panic `{BuildEnv} (j : javaBase)
    (ctx : AndroidModuleContext) (s : ctxState) :
  (forall d, In d (directDeps ctx) -> implementsJavaDependency d = true ->
             In (fst d) (AndroidDynamicDependencies j ctx)) ->
  exists x s', collectDeps j ctx s = Returns (x, s').
Proof.
  intros Hdeclared. unfold collectDeps, VisitDirectDeps. rewrite visitEach_placed.
  destruct (find (isUnknownDep j ctx) (directDeps ctx)) as [d|] eqn:Hfind.
  - apply find_some in Hfind. destruct Hfind as [Hin Hu]. exfalso.
    assert (Hi : implementsJavaDependency d = true).
    { unfold isUnknownDep in Hu. destruct (implementsJavaDependency d); [reflexivity|].
      discriminate Hu. }
    rewrite (declared_name_placed j ctx d (Hdeclared d Hin Hi)) in Hu. discriminate Hu.
  - do 2 eexists. reflexivity.
Qed.

Lemma declared_dependencies_never_panic_witness :
  exists x s',
    collectDeps (sample_javaBase (twoLibs_properties ""))
      (sample_ctx true (rev twoLibs_deps ++ twoLibs_deps) neverFails) emptyState =
    Returns (x, s').
Proof.
  apply (declared_dependencies_never_panic (sample_javaBase (twoLibs_properties ""))
           (sample_ctx true (rev twoLibs_deps ++ twoLibs_deps) neverFails) emptyState).
  intros d Hin _. cbn in Hin.
  repeat (destruct Hin as [<-|Hin]; [cbn; tauto|]). contradiction.
Defined.

(** ** Declaring dependencies *)

(** X4. [inList s l] holds exactly when [s] is an element of [l]. *)
Theorem inList_iff_In (s : string) (l : list string) :
  inList s l = true <-> In s l.
Proof.
  apply inList_In.
Qed.

(** X5. What [AndroidDynamicDependencies] requests: with
    [no_standard_libraries], the link-only names followed by the merge
    names; otherwise, on a device, the boot classpath name, which is never
    empty there, followed by them; on the host, "core-libart" followed by
    them when [Dex] is set, and they alone when it is not. *)
Theorem AndroidDynamicDependencies_shape `{BuildEnv} (j : javaBase)
    (ctx : AndroidModuleContext) :
  let libs := Java_libs (properties j) ++ Java_static_libs (properties j) in
  (No_standard_libraries (properties j) = true ->
   AndroidDynamicDependencies j ctx = libs) /\
  (No_standard_libraries (properties j) = false -> Device ctx = true ->
   BootClasspath j ctx <> "" /\
   AndroidDynamicDependencies j ctx = BootClasspath j ctx :: libs) /\
  (No_standard_libraries (properties j) = false -> Device ctx = false ->
   Dex (properties j) = true ->
   AndroidDynamicDependencies j ctx = "core-libart" :: libs) /\
  (No_standard_libraries (properties j) = false -> Device ctx = false ->
   Dex (properties j) = false ->
   AndroidDynamicDependencies j ctx = libs).
Proof.
  intros libs. subst libs. unfold AndroidDynamicDependencies, BootClasspath.
  split; [|split; [|split]].
  - intros ->. reflexivity.
  - intros -> ->. cbn [negb].
    destruct (String.eqb (Sdk_version (properties j)) "");
      [split; [discriminate | reflexivity]|].
    destruct (String.eqb (Sdk_version (properties j)) "current");
      [split; [discriminate | reflexivity]|].
    destruct (String.eqb (Sdk_version (properties j)) "system_current");
      split; try discriminate; reflexivity.
  - intros -> -> ->. reflexivity.
  - intros -> -> ->. reflexivity.
Qed.

Lemma AndroidDynamicDependencies_shape_witness :
  AndroidDynamicDependencies (sample_javaBase (twoLibs_properties ""))
    (sample_ctx false [] neverFails) = ["core-libart"; "a"; "b"] /\
  AndroidDynamicDependencies (sample_javaBase ambiguous_properties)
    (sample_ctx true [] neverFails) = ["x"; "x"].
Proof.
  split.
  - exact (proj1 (proj2 (proj2 (AndroidDynamicDependencies_shape
                                  (sample_javaBase (twoLibs_properties ""))
                                  (sample_ctx false [] neverFails))))
             eq_refl eq_refl eq_refl).
  - exact (proj1 (AndroidDynamicDependencies_shape (sample_javaBase ambiguous_properties)
                    (sample_ctx true [] neverFails)) eq_refl).
Defined.

(** X6. On a device, modules with different [sdk_version] never share a
    boot classpath name. *)
Theorem BootClasspath_distinguishes_sdk_versions `{BuildEnv} (j j' : javaBase)
    (ctx ctx' : AndroidModuleContext) :
  Device ctx = true ->
  Device ctx' = true ->
  BootClasspath j ctx = BootClasspath j' ctx' ->
  Sdk_version (properties j) = Sdk_version (properties j').
Proof.
  unfold BootClasspath. intros -> ->.
  destruct (String.eqb_spec (Sdk_version (properties j)) "") as [->|_];
    destruct (String.eqb_spec (Sdk_version (properties j')) "") as [->|_];
    try reflexivity;
    repeat match goal with
           | |- context [String.eqb ?x ?y] => destruct (String.eqb_spec x y) as [->|_]
           end;
    cbn; intros Heq; try discriminate Heq; try reflexivity.
  injection Heq as ->. reflexivity.
Qed.

Lemma BootClasspath_distinguishes_sdk_versions_witness :
  Sdk_version (properties (sample_javaBase (twoLibs_properties ""))) =
  Sdk_version (properties (sample_javaBase (twoLibs_properties "rules.txt"))).
Proof.
  exact (BootClasspath_distinguishes_sdk_versions
           (sample_javaBase (twoLibs_properties ""))
           (sample_javaBase (twoLibs_properties "rules.txt"))
           (sample_ctx true [] neverFails) (sample_ctx true twoLibs_deps neverFails)
           eq_refl eq_refl eq_refl).
Defined.

(** ** The stages of GenerateJavaBuildActions *)

Lemma javacInputs_eq `{BuildEnv} (j : javaBase) (cp : list string) (boot : string) :
  javacInputs j cp boot =
    ({| javacFlags := strings_Join (Javacflags (properties j)) " ";
        dxFlags := "";
        bootClasspath := if nonEmpty boot then ("-bootclasspath " ++ boot)%string else "";
        classpath := match cp with
                     | [] => ""
                     | _ :: _ => ("-classpath " ++ strings_Join cp ":")%string
                     end |},
     (if nonEmpty boot then [boot] else []) ++ cp).
Proof.
  unfold javacInputs. destruct (nonEmpty boot); destruct cp; reflexivity.
Qed.

(** X7. Every run that does not panic requests the compile transform
    first, also for a module without sources and also when collection
    reported errors.  Its sources are the module's [srcs] prefixed with the
    module source directory and glob-expanded; its dependencies are the boot
    entry, when there is one, followed by the classpath; the flags carry
    [javacflags] joined by spaces, "-bootclasspath" with the boot entry only
    when there is one, and "-classpath" with the entries joined by ":" only
    when the classpath is not empty. *)
Theorem compile_requested_first `{BuildEnv} (j : javaBase) (ctx : AndroidModuleContext)
    (s s1 : ctxState) (cp : list string) (boot : string) (cjs rjs : list jarSpec) :
  collectDeps j ctx s = Returns ((cp, boot, cjs, rjs), s1) ->
  exists j' s' rest,
    javaBase_GenerateJavaBuildActions j ctx s = Returns (j', s') /\
    rules s' =
      rules s1 ++
      JavaToClasses
        (ExpandGlobs (PrefixPaths (Srcs (properties j)) (ModuleSrcDir ctx)))
        {| javacFlags := strings_Join (Javacflags (properties j)) " ";
           dxFlags := "";
           bootClasspath := if nonEmpty boot then ("-bootclasspath " ++ boot)%string else "";
           classpath := match cp with
                        | [] => ""
                        | _ :: _ => ("-classpath " ++ strings_Join cp ":")%string
                        end |}
        ((if nonEmpty boot then [boot] else []) ++ cp)
      :: rest.
Proof.
  intros Hc. unfold_pipeline. rewrite Hc, javacInputs_eq.
  destruct (errors s1) as [|e es] eqn:He.
  - split_stages He.
    all: do 3 eexists; split; [reflexivity|].
    all: cbn [rules]; rewrite <- ?app_assoc; reflexivity.
  - reduce_state He.
    destruct (stageFails _ (JavaToClasses _ _ _)); reduce_state He.
    all: do 3 eexists; split; [reflexivity|].
    all: cbn [rules]; reflexivity.
Qed.

Lemma compile_requested_first_witness :
  exists j' s' rest,
    javaBase_GenerateJavaBuildActions (sample_javaBase zero_javaProperties)
        (sample_ctx false [] neverFails) emptyState = Returns (j', s') /\
    rules s' =
      @JavaToClasses sampleEnv []
        {| javacFlags := ""; dxFlags := ""; bootClasspath := ""; classpath := "" |} []
      :: rest.
Proof.
  exact (compile_requested_first (sample_javaBase zero_javaProperties)
           (sample_ctx false [] neverFails) emptyState emptyState [] "" [] [] eq_refl).
Defined.

Lemma failed_context_halts `{BuildEnv} (j : javaBase)
    (ctx : AndroidModuleContext) (s s1 : ctxState) (x : collected) :
  collectDeps j ctx s = Returns (x, s1) ->
  errors s1 <> [] ->
  exists st s',
    javaBase_GenerateJavaBuildActions j ctx s = Returns (j, s') /\
    kindOf st = Compile /\
    rules s' = rules s1 ++ [st] /\
    installs s' = installs s1 /\
    errors s' <> [].
Proof.
  intros Hc Hne. destruct x as [[[cp boot] cjs] rjs].
  unfold_pipeline. rewrite Hc.
  destruct (javacInputs j cp boot) as [flags javacDeps].
  destruct (errors s1) as [|e es] eqn:He; [contradiction|].
  reduce_state He.
  destruct (stageFails _ (JavaToClasses _ _ _)); reduce_state He.
  all: do 2 eexists; split; [reflexivity|].
  all: split; [|split; [reflexivity|split; [reflexivity|discriminate]]]; reflexivity.
Qed.

(** X8. When the context has failed by the end of collection (a visited
    module is not a JavaDependency, or an error was there before), the run
    requests the compile transform and nothing else, installs nothing and
    leaves the module as it was. *)
Theorem failed_collection_stops_after_compile `{BuildEnv} (j : javaBase)
    (ctx : AndroidModuleContext) (s s1 : ctxState) (x : collected) :
  collectDeps j ctx s = Returns (x, s1) ->
  errors s1 <> [] ->
  exists st s',
    javaBase_GenerateJavaBuildActions j ctx s = Returns (j, s') /\
    kindOf st = Compile /\
    rules s' = rules s1 ++ [st] /\
    installs s' = installs s1.
Proof.
  intros Hc Hne.
  destruct (failed_context_halts j ctx s s1 x Hc Hne) as (st & s' & Hrun & Hk & Hr & Hi & _).
  exists st, s'. auto.
Qed.

Lemma failed_collection_stops_after_compile_witness :
  exists st s',
    javaBase_GenerateJavaBuildActions (sample_javaBase (twoLibs_properties ""))
        (sample_ctx true (twoLibs_deps ++ [("tool", NotJavaDependency)]) neverFails)
        emptyState =
      Returns (sample_javaBase (twoLibs_properties ""), s') /\
    kindOf st = Compile /\
    rules s' = [st] /\
    installs s' = [].
Proof.
  apply (failed_collection_stops_after_compile (sample_javaBase (twoLibs_properties ""))
           (sample_ctx true (twoLibs_deps ++ [("tool", NotJavaDependency)]) neverFails)
           emptyState
           {| errors := [UnknownDependencyModuleType "tool"]; rules := []; installs := [] |}
           (["a.jar"; "b.jar"], "core-libart.jar", ["b.classes"], ["b.res"]) eq_refl).
  discriminate.
Defined.

Lemma pipeline_install_summary `{BuildEnv} (j : javaBase) (ctx : AndroidModuleContext)
    (s s1 : ctxState) (x : collected) :
  collectDeps j ctx s = Returns (x, s1) ->
  errors s1 = [] ->
  exists j' s' new,
    javaBase_GenerateJavaBuildActions j ctx s = Returns (j', s') /\
    rules s' = rules s1 ++ new /\
    (errors s' = [] ->
     map kindOf new =
       [Compile; PrimaryMerge]
         ++ (if nonEmpty (Jarjar_rules (properties j)) then [Rename] else [])
         ++ (if Dex (properties j) then [Convert; FinalMerge] else [])) /\
    (errors s' = [] \/ reported FinalMerge s' ->
     exists out,
       installs s' = installs s1 ++ [("framework", (ModuleName ctx ++ ".jar")%string, out)] /\
       installFile j' = InstallFileName "framework" (ModuleName ctx ++ ".jar") out /\
       (Dex (properties j) = false -> out = classpathFile j') /\
       (Dex (properties j) = true ->
        exists flags, out = javaLibOf (resourceJarSpecs j') (dexOf (classpathFile j') flags))) /\
    (reported Compile s' \/ reported PrimaryMerge s' \/ reported Rename s' \/
     reported Convert s' ->
     installs s' = installs s1 /\ installFile j' = installFile j).
Proof.
  intros Hc He. destruct x as [[[cp boot] cjs] rjs].
  unfold_pipeline. rewrite Hc.
  destruct (javacInputs j cp boot) as [flags javacDeps].
  split_stages He.
  all: do 3 eexists; split; [reflexivity|].
  all: split; [cbn [rules]; rewrite <- ?app_assoc; reflexivity|].
  all: split; [intros Hok; try discriminate Hok; reflexivity|].
  all: split.
  all: try (intros [Hok|Hrep]; [try discriminate Hok | inv_reported Hrep]).
  all: try (intros [Hrep|[Hrep|[Hrep|Hrep]]]; inv_reported Hrep; split; reflexivity).
  all: eexists; split; [reflexivity|]; split; [reflexivity|].
  all: split; intros Hdex; try discriminate Hdex; try congruence; try reflexivity.
  all: eexists; reflexivity.
Qed.

Lemma successful_run_clean_collection `{BuildEnv} (j j' : javaBase)
    (ctx : AndroidModuleContext) (s s1 s' : ctxState) (x : collected) :
  collectDeps j ctx s = Returns (x, s1) ->
  javaBase_GenerateJavaBuildActions j ctx s = Returns (j', s') ->
  errors s' = [] ->
  errors s1 = [].
Proof.
  intros Hc Hrun Hok. destruct (errors s1) as [|e es] eqn:He; [reflexivity|].
  assert (Hne : errors s1 <> []) by (rewrite He; discriminate).
  destruct (failed_context_halts j ctx s s1 x Hc Hne) as (st & s2 & Hrun2 & _ & _ & _ & Hbad).
  rewrite Hrun in Hrun2. injection Hrun2 as _ <-. contradiction.
Qed.

(** X9. A run that ends without any error has requested, in this order:
    the compile, the primary merge, jarjar when [jarjar_rules] is given, and
    the conversion to dex followed by the final merge when [Dex] is set;
    nothing else. *)
Theorem successful_run_stages `{BuildEnv} (j j' : javaBase) (ctx : AndroidModuleContext)
    (s s1 s' : ctxState) (x : collected) :
  collectDeps j ctx s = Returns (x, s1) ->
  javaBase_GenerateJavaBuildActions j ctx s = Returns (j', s') ->
  errors s' = [] ->
  exists new,
    rules s' = rules s1 ++ new /\
    map kindOf new =
      [Compile; PrimaryMerge]
        ++ (if nonEmpty (Jarjar_rules (properties j)) then [Rename] else [])
        ++ (if Dex (properties j) then [Convert; FinalMerge] else []).
Proof.
  intros Hc Hrun Hok.
  pose proof (successful_run_clean_collection j j' ctx s s1 s' x Hc Hrun Hok) as He.
  destruct (pipeline_install_summary j ctx s s1 x Hc He)
    as (j2 & s2 & new & Hrun2 & Hrules & Hkinds & _).
  rewrite Hrun in Hrun2. injection Hrun2 as <- <-.
  exists new. split; [exact Hrules | exact (Hkinds Hok)].
Qed.

Lemma successful_run_stages_witness :
  exists j' s',
    javaBase_GenerateJavaBuildActions (sample_javaBase (twoLibs_properties "rules.txt"))
        (sample_ctx true twoLibs_deps neverFails) emptyState = Returns (j', s') /\
    exists new,
      rules s' = new /\
      map kindOf new = [Compile; PrimaryMerge; Rename; Convert; FinalMerge].
Proof.
  do 2 eexists. split; [cbv; reflexivity|].
  exact (successful_run_stages (sample_javaBase (twoLibs_properties "rules.txt")) _
           (sample_ctx true twoLibs_deps neverFails) emptyState emptyState _
           (["a.jar"; "b.jar"], "core-libart.jar", ["b.classes"], ["b.res"])
           eq_refl eq_refl eq_refl).
Defined.

(** X10. A run that ends without any error has recorded exactly one
    install, under "framework" and named after the module with ".jar", and
    [installFile] is the path that install returned.  What is installed is
    the exported classpath file when [Dex] is clear, and the output of the
    final merge of the exported resource jarSpecs with the dex file made
    from the exported classpath file when [Dex] is set. *)
Theorem successful_run_installs `{BuildEnv} (j j' : javaBase) (ctx : AndroidModuleContext)
    (s s1 s' : ctxState) (x : collected) :
  collectDeps j ctx s = Returns (x, s1) ->
  javaBase_GenerateJavaBuildActions j ctx s = Returns (j', s') ->
  errors s' = [] ->
  exists out,
    installs s' = installs s1 ++ [("framework", (ModuleName ctx ++ ".jar")%string, out)] /\
    installFile j' = InstallFileName "framework" (ModuleName ctx ++ ".jar") out /\
    (Dex (properties j) = false -> out = ClasspathFile j') /\
    (Dex (properties j) = true ->
     exists flags, out = javaLibOf (ResourceJarSpecs j') (dexOf (ClasspathFile j') flags)).
Proof.
  intros Hc Hrun Hok.
  pose proof (successful_run_clean_collection j j' ctx s s1 s' x Hc Hrun Hok) as He.
  destruct (pipeline_install_summary j ctx s s1 x Hc He)
    as (j2 & s2 & new & Hrun2 & _ & _ & Hinst & _).
  rewrite Hrun in Hrun2. injection Hrun2 as <- <-.
  exact (Hinst (or_introl Hok)).
Qed.

Lemma successful_run_installs_witness :
  exists j' s',
    javaBase_GenerateJavaBuildActions
        (sample_javaBase (set_Dex_properties (twoLibs_properties "") false))
        (sample_ctx true twoLibs_deps neverFails) emptyState = Returns (j', s') /\
    exists out,
      installs s' = [("framework", "mod.jar", out)] /\
      installFile j' = "out/framework/mod.jar" /\
      out = classpathFile j'.
Proof.
  do 2 eexists. split; [cbv; reflexivity|].
  destruct (successful_run_installs
              (sample_javaBase (set_Dex_properties (twoLibs_properties "") false)) _
              (sample_ctx true twoLibs_deps neverFails) emptyState emptyState _
              (["a.jar"; "b.jar"], "core-libart.jar", ["b.classes"], ["b.res"])
              eq_refl eq_refl eq_refl) as (out & Hinst & Hfile & Hclear & _).
  exists out. split; [exact Hinst|]. split; [exact Hfile|]. exact (Hclear eq_refl).
Defined.

Lemma manifest_eq (m a : string) :
  (if nonEmpty m then a else m) = (if nonEmpty m then a else "").
Proof.
  unfold nonEmpty. destruct (String.eqb_spec m "") as [->|_]; reflexivity.
Qed.

Lemma pipeline_exports `{BuildEnv} (j : javaBase) (ctx : AndroidModuleContext)
    (s s1 : ctxState) (cp : list string) (boot : string) (cjs rjs : list jarSpec) :
  collectDeps j ctx s = Returns ((cp, boot, cjs, rjs), s1) ->
  errors s1 = [] ->
  exists j' s',
    javaBase_GenerateJavaBuildActions j ctx s = Returns (j', s') /\
    (~ reported Compile s' -> ~ reported PrimaryMerge s' ->
     classJarSpecs j' = ownClasses j ctx cp boot :: cjs /\
     resourceJarSpecs j' = ownResources j ++ rjs /\
     (~ reported Rename s' ->
      classpathFile j' =
        let classesJar :=
          classesJarOf ([ownClasses j ctx cp boot] ++ cjs ++ ownResources j ++ rjs)
            (if nonEmpty (Manifest (properties j))
             then filepath_Join (ModuleSrcDir ctx) (Manifest (properties j)) else "") in
        if nonEmpty (Jarjar_rules (properties j))
        then jarjarOf classesJar (filepath_Join (ModuleSrcDir ctx) (Jarjar_rules (properties j)))
        else classesJar)).
Proof.
  intros Hc He. unfold_pipeline. rewrite Hc.
  destruct (javacInputs j cp boot) as [flags javacDeps].
  split_stages He.
  all: do 2 eexists; split; [reflexivity|].
  all: intros Hcompile Hmerge.
  all: try (exfalso; apply Hcompile; show_reported).
  all: try (exfalso; apply Hmerge; show_reported).
  all: split; [reflexivity|]; split; [reflexivity|].
  all: intros Hrename.
  all: try (exfalso; apply Hrename; show_reported).
  all: cbn [classpathFile set_installFile set_classpathFile]; unfold ownResources;
    cbn [app]; rewrite manifest_eq; reflexivity.
Qed.

(** X11. In a run whose context has no error when collection ends, and in
    which the compile, the primary merge and jarjar report no failure, the
    exported
    classpath file is the output of the primary merge, or of jarjar on it
    when [jarjar_rules] is given; it is never the dex output.  The primary
    merge embeds the manifest, located in the module source directory, only
    when one is named. *)
Theorem exported_classpathFile `{BuildEnv} (j j' : javaBase) (ctx : AndroidModuleContext)
    (s s1 s' : ctxState) (cp : list string) (boot : string) (cjs rjs : list jarSpec) :
  collectDeps j ctx s = Returns ((cp, boot, cjs, rjs), s1) ->
  errors s1 = [] ->
  javaBase_GenerateJavaBuildActions j ctx s = Returns (j', s') ->
  ~ reported Compile s' -> ~ reported PrimaryMerge s' -> ~ reported Rename s' ->
  ClasspathFile j' =
    let classesJar :=
      classesJarOf ([ownClasses j ctx cp boot] ++ cjs ++ ownResources j ++ rjs)
        (if nonEmpty (Manifest (properties j))
         then filepath_Join (ModuleSrcDir ctx) (Manifest (properties j)) else "") in
    if nonEmpty (Jarjar_rules (properties j))
    then jarjarOf classesJar (filepath_Join (ModuleSrcDir ctx) (Jarjar_rules (properties j)))
    else classesJar.
Proof.
  intros Hc He Hrun Hcompile Hmerge Hrename.
  destruct (pipeline_exports j ctx s s1 cp boot cjs rjs Hc He) as (j2 & s2 & Hrun2 & Hexp).
  rewrite Hrun in Hrun2. injection Hrun2 as <- <-.
  destruct (Hexp Hcompile Hmerge) as (_ & _ & Hcp). exact (Hcp Hrename).
Qed.

Lemma exported_classpathFile_witness :
  exists j' s',
    javaBase_GenerateJavaBuildActions (sample_javaBase (twoLibs_properties "rules.txt"))
        (sample_ctx true twoLibs_deps dexFails) emptyState = Returns (j', s') /\
    @ClasspathFile sampleEnv _ _ j' = "classes-jarjar.jar".
Proof.
  do 2 eexists. split; [cbv; reflexivity|].
  apply (exported_classpathFile (sample_javaBase (twoLibs_properties "rules.txt")) _
           (sample_ctx true twoLibs_deps dexFails) emptyState emptyState _
           ["a.jar"; "b.jar"] "core-libart.jar" ["b.classes"] ["b.res"]
           eq_refl eq_refl eq_refl).
  all: intros Hrep; inv_reported Hrep.
Defined.

(** X12. The final merge is not followed by a failure check: in a run
    whose collection reported nothing, when the final merge reports a
    failure the install is recorded all the same and [installFile] is set
    to the path it returned. *)
Theorem final_merge_failure_still_installs `{BuildEnv} (j j' : javaBase)
    (ctx : AndroidModuleContext) (s s1 s' : ctxState) (x : collected) :
  collectDeps j ctx s = Returns (x, s1) ->
  errors s1 = [] ->
  javaBase_GenerateJavaBuildActions j ctx s = Returns (j', s') ->
  reported FinalMerge s' ->
  exists out,
    installs s' = installs s1 ++ [("framework", (ModuleName ctx ++ ".jar")%string, out)] /\
    installFile j' = InstallFileName "framework" (ModuleName ctx ++ ".jar") out.
Proof.
  intros Hc He Hrun Hrep.
  destruct (pipeline_install_summary j ctx s s1 x Hc He)
    as (j2 & s2 & new & Hrun2 & _ & _ & Hinst & _).
  rewrite Hrun in Hrun2. injection Hrun2 as <- <-.
  destruct (Hinst (or_intror Hrep)) as (out & Hi & Hf & _).
  exists out. split; assumption.
Qed.

Lemma final_merge_failure_still_installs_witness :
  exists j' s',
    javaBase_GenerateJavaBuildActions (sample_javaBase (twoLibs_properties ""))
        (sample_ctx true twoLibs_deps finalMergeFails) emptyState = Returns (j', s') /\
    exists out,
      installs s' = [("framework", "mod.jar", out)] /\
      installFile j' = "out/framework/mod.jar".
Proof.
  do 2 eexists. split; [cbv; reflexivity|].
  apply (final_merge_failure_still_installs (sample_javaBase (twoLibs_properties "")) _
           (sample_ctx true twoLibs_deps finalMergeFails) emptyState emptyState _
           (["a.jar"; "b.jar"], "core-libart.jar", ["b.classes"], ["b.res"])
           eq_refl eq_refl eq_refl).
  show_reported.
Defined.

(** ** Java binaries *)

Lemma binary_run `{BuildEnv} (b b' : JavaBinary) (ctx : AndroidModuleContext)
    (s s' : ctxState) :
  GenerateJavaBuildActions b ctx s = Returns (b', s') ->
  exists j1 s2,
    javaBase_GenerateJavaBuildActions (JavaLibrary_javaBase (JavaBinary_JavaLibrary b)) ctx s =
      Returns (j1, s2) /\
    b' = {| JavaBinary_JavaLibrary := {| JavaLibrary_javaBase := j1 |};
            Wrapper := Wrapper b |} /\
    errors s' = errors s2 /\
    rules s' = rules s2 /\
    installs s' =
      installs s2 ++ [("bin", filepath_Join (ModuleSrcDir ctx) (Wrapper b), installFile j1)].
Proof.
  cbn [GenerateJavaBuildActions JavaBinary_JavaModuleType JavaLibrary_JavaModuleType].
  unfold bind at 1 2.
  destruct (javaBase_GenerateJavaBuildActions _ ctx s) as [[j1 s2]|p]; [|discriminate].
  unfold ret, ctx_InstallFile, bind. intros [= <- <-].
  exists j1, s2. repeat split.
Qed.

(** X13. A binary whose run ends without any error has recorded two
    installs after the library's stages: the jar under "framework", and the
    wrapper script, taken from the module source directory, under "bin";
    the wrapper depends on the installed jar (the path the first install
    returned), not on the jar in the output directory. *)
Theorem binary_wrapper_depends_on_installed_jar `{BuildEnv} (b b' : JavaBinary)
    (ctx : AndroidModuleContext) (s s1 s' : ctxState) (x : collected) :
  collectDeps (JavaLibrary_javaBase (JavaBinary_JavaLibrary b)) ctx s = Returns (x, s1) ->
  GenerateJavaBuildActions b ctx s = Returns (b', s') ->
  errors s' = [] ->
  exists out,
    installs s' =
      installs s1 ++
      [("framework", (ModuleName ctx ++ ".jar")%string, out);
       ("bin", filepath_Join (ModuleSrcDir ctx) (Wrapper b),
        InstallFileName "framework" (ModuleName ctx ++ ".jar") out)] /\
    Wrapper b' = Wrapper b.
Proof.
  intros Hc Hrun Hok.
  destruct (binary_run b b' ctx s s' Hrun) as (j1 & s2 & Hlib & -> & He & _ & Hi).
  rewrite He in Hok.
  pose proof (successful_run_clean_collection _ j1 ctx s s1 s2 x Hc Hlib Hok) as He1.
  destruct (pipeline_install_summary _ ctx s s1 x Hc He1)
    as (j2 & s3 & new & Hrun2 & _ & _ & Hinst & _).
  rewrite Hlib in Hrun2. injection Hrun2 as <- <-.
  destruct (Hinst (or_introl Hok)) as (out & Hi2 & Hf & _).
  exists out. rewrite Hi, Hi2, Hf, <- app_assoc. split; reflexivity.
Qed.

Lemma binary_wrapper_depends_on_installed_jar_witness :
  exists b' s',
    GenerateJavaBuildActions
        (@Build_JavaBinary sampleEnv
           {| JavaLibrary_javaBase := sample_javaBase (twoLibs_properties "") |} "run.sh")
        (sample_ctx true twoLibs_deps neverFails) emptyState = Returns (b', s') /\
    exists out,
      installs s' =
        [("framework", "mod.jar", out); ("bin", "src/run.sh", "out/framework/mod.jar")] /\
      Wrapper b' = "run.sh".
Proof.
  do 2 eexists. split; [cbv; reflexivity|].
  exact (binary_wrapper_depends_on_installed_jar
           (@Build_JavaBinary sampleEnv
              {| JavaLibrary_javaBase := sample_javaBase (twoLibs_properties "") |} "run.sh")
           _ (sample_ctx true twoLibs_deps neverFails) emptyState emptyState _
           (["a.jar"; "b.jar"], "core-libart.jar", ["b.classes"], ["b.res"])
           eq_refl eq_refl eq_refl).
Defined.

(** X14. A binary installs its wrapper whether or not the library stages
    succeeded: when the compile, the primary merge, jarjar or the conversion
    to dex reports a failure, the jar is not installed, and the only install
    recorded is the wrapper's, depending on the [installFile] the module had
    before the run. *)
Theorem binary_wrapper_installed_after_failure `{BuildEnv} (b b' : JavaBinary)
    (ctx : AndroidModuleContext) (s s1 s' : ctxState) (x : collected) :
  collectDeps (JavaLibrary_javaBase (JavaBinary_JavaLibrary b)) ctx s = Returns (x, s1) ->
  errors s1 = [] ->
  GenerateJavaBuildActions b ctx s = Returns (b', s') ->
  reported Compile s' \/ reported PrimaryMerge s' \/ reported Rename s' \/
  reported Convert s' ->
  installs s' =
    installs s1 ++
    [("bin", filepath_Join (ModuleSrcDir ctx) (Wrapper b),
      installFile (JavaLibrary_javaBase (JavaBinary_JavaLibrary b)))].
Proof.
  intros Hc He Hrun Hrep.
  destruct (binary_run b b' ctx s s' Hrun) as (j1 & s2 & Hlib & -> & Herr & _ & Hi).
  destruct (pipeline_install_summary _ ctx s s1 x Hc He)
    as (j2 & s3 & new & Hrun2 & _ & _ & _ & Hhalt).
  rewrite Hlib in Hrun2. injection Hrun2 as <- <-.
  assert (Hrep2 : reported Compile s2 \/ reported PrimaryMerge s2 \/ reported Rename s2 \/
                  reported Convert s2).
  { unfold reported in *. rewrite Herr in Hrep. exact Hrep. }
  destruct (Hhalt Hrep2) as [Hi2 Hf]. rewrite Hi, Hi2, Hf. reflexivity.
Qed.

Lemma binary_wrapper_installed_after_failure_witness :
  exists b' s',
    GenerateJavaBuildActions
        (@Build_JavaBinary sampleEnv
           {| JavaLibrary_javaBase := sample_javaBase (twoLibs_properties "rules.txt") |}
           "run.sh")
        (sample_ctx true twoLibs_deps jarjarFails) emptyState = Returns (b', s') /\
    installs s' = [("bin", "src/run.sh", "")].
Proof.
  do 2 eexists. split; [cbv; reflexivity|].
  apply (binary_wrapper_installed_after_failure
           (@Build_JavaBinary sampleEnv
              {| JavaLibrary_javaBase := sample_javaBase (twoLibs_properties "rules.txt") |}
              "run.sh")
           _ (sample_ctx true twoLibs_deps jarjarFails) emptyState emptyState _
           (["a.jar"; "b.jar"], "core-libart.jar", ["b.classes"], ["b.res"])
           eq_refl eq_refl eq_refl).
  right. right. left. show_reported.
Defined.

(** ** Modules as dependencies of other modules *)

(** X15. What a prebuilt publishes is what a dependent collects.  For a
    prebuilt built from its one jar and visited as the only dependency of a
    module: under a link-only name, the module's classpath is that jar and
    nothing is merged; under a merge name that is not also link-only, the
    classpath is that jar and the merged class and resource jarSpecs are the
    two jarSpecs split from it. *)
Theorem prebuilt_as_dependency `{BuildEnv} (p p' : Prebuilt.JavaPrebuilt)
    (ctxP : AndroidModuleContext) (sP sP' : ctxState) (src name : string)
    (j : javaBase) (ctx : AndroidModuleContext) (s : ctxState) :
  Prebuilt.Srcs (Prebuilt.properties p) = [src] ->
  JavaPrebuilt_GenerateAndroidBuildActions p ctxP sP = Returns (p', sP') ->
  directDeps ctx = [(name, IsJavaDependency p')] ->
  let jar := filepath_Join (ModuleSrcDir ctxP) src in
  (inList name (Java_libs (properties j)) = true ->
   collectDeps j ctx s = Returns (([jar], "", [], []), s)) /\
  (inList name (Java_libs (properties j)) = false ->
   inList name (Java_static_libs (properties j)) = true ->
   collectDeps j ctx s =
     Returns (([jar], "", [fst (prebuiltSpecsOf jar)], [snd (prebuiltSpecsOf jar)]), s)).
Proof.
  intros Hsrc Hbuild Hdeps jar.
  unfold JavaPrebuilt_GenerateAndroidBuildActions in Hbuild.
  rewrite Hsrc in Hbuild. cbn [length Nat.eqb negb nth] in Hbuild. fold jar in Hbuild.
  unfold TransformPrebuiltJarToClasses, ctx_InstallFileName, request, ModuleErrorf,
    bind, ret in Hbuild.
  destruct (prebuiltSpecsOf jar) as [classJarSpec resourceJarSpec].
  assert (Hp : p' = {| Prebuilt.properties := Prebuilt.properties p;
                       Prebuilt.classpathFile := jar;
                       Prebuilt.classJarSpecs := [classJarSpec];
                       Prebuilt.resourceJarSpecs := [resourceJarSpec] |}).
  { destruct (stageFails ctxP (PrebuiltJarToClasses jar)); injection Hbuild as <- _;
      reflexivity. }
  subst p'. unfold collectDeps, VisitDirectDeps. rewrite Hdeps.
  cbn [visitEach visitDep]. unfold bind, ret. split.
  - intros ->. reflexivity.
  - intros -> ->. reflexivity.
Qed.

Lemma prebuilt_as_dependency_witness :
  collectDeps (sample_javaBase (twoLibs_properties ""))
      (sample_ctx true
         [("b", IsJavaDependency
                  (@Prebuilt.Build_JavaPrebuilt sampleEnv {| Prebuilt.Srcs := ["b.jar"] |}
                     "src/b.jar" ["classes:src/b.jar"] ["resources:src/b.jar"]))]
         neverFails) emptyState =
    Returns ((["src/b.jar"], "", ["classes:src/b.jar"], ["resources:src/b.jar"]), emptyState).
Proof.
  exact (proj2 (prebuilt_as_dependency
                  (@Prebuilt.Build_JavaPrebuilt sampleEnv {| Prebuilt.Srcs := ["b.jar"] |}
                     "" [] [])
                  (@Prebuilt.Build_JavaPrebuilt sampleEnv {| Prebuilt.Srcs := ["b.jar"] |}
                     "src/b.jar" ["classes:src/b.jar"] ["resources:src/b.jar"])
                  (sample_ctx true [] neverFails) emptyState _ "b.jar" "b"
                  (sample_javaBase (twoLibs_properties ""))
                  (sample_ctx true [("b", _)] neverFails) emptyState
                  eq_refl eq_refl eq_refl) eq_refl eq_refl).
Defined.

(** X16. What a module merges, its dependents merge too: in a run whose
    context has no error when collection ends, and in which neither the
    compile nor the primary merge reports a failure, every class jarSpec
    exported by a
    visited merge dependency is among the class jarSpecs the module exports,
    and likewise for the resource jarSpecs. *)
Theorem merge_dependency_exports_contained `{BuildEnv} (j j' : javaBase)
    (ctx : AndroidModuleContext) (s s1 s' : ctxState) (x : collected)
    (d : string * blueprint_Module) :
  collectDeps j ctx s = Returns (x, s1) ->
  errors s1 = [] ->
  javaBase_GenerateJavaBuildActions j ctx s = Returns (j', s') ->
  ~ reported Compile s' -> ~ reported PrimaryMerge s' ->
  In d (directDeps ctx) ->
  isMergeDep j d = true ->
  incl (depClassJarSpecs d) (ClassJarSpecs j') /\
  incl (depResourceJarSpecs d) (ResourceJarSpecs j').
Proof.
  intros Hc He Hrun Hcompile Hmerge Hin Hd.
  pose proof Hc as Hx. unfold collectDeps, VisitDirectDeps in Hx.
  rewrite visitEach_placed in Hx.
  destruct (find (isUnknownDep j ctx) (directDeps ctx)); [discriminate|].
  injection Hx as Hx _. cbn [app] in Hx. subst x.
  destruct (pipeline_exports j ctx s s1 _ _ _ _ Hc He) as (j2 & s2 & Hrun2 & Hexp).
  rewrite Hrun in Hrun2. injection Hrun2 as <- <-.
  destruct (Hexp Hcompile Hmerge) as (Hcls & Hres & _).
  cbn [ClassJarSpecs ResourceJarSpecs javaBase_JavaDependency].
  rewrite Hcls, Hres. split; intros a Ha.
  - right. apply in_flat_map. exists d. split; [|exact Ha].
    apply filter_In. split; assumption.
  - apply in_or_app. right. apply in_flat_map. exists d. split; [|exact Ha].
    apply filter_In. split; assumption.
Qed.

Lemma merge_dependency_exports_contained_witness :
  exists j' s',
    javaBase_GenerateJavaBuildActions (sample_javaBase (twoLibs_properties ""))
        (sample_ctx true twoLibs_deps neverFails) emptyState = Returns (j', s') /\
    incl ["b.classes"] (@ClassJarSpecs sampleEnv _ _ j') /\
    incl ["b.res"] (@ResourceJarSpecs sampleEnv _ _ j').
Proof.
  do 2 eexists. split; [cbv; reflexivity|].
  apply (merge_dependency_exports_contained (sample_javaBase (twoLibs_properties "")) _
           (sample_ctx true twoLibs_deps neverFails) emptyState emptyState _
           (["a.jar"; "b.jar"], "core-libart.jar", ["b.classes"], ["b.res"])
           ("b", sample_built "b.jar" ["b.classes"] ["b.res"])
           eq_refl eq_refl eq_refl).
  - intros Hrep; inv_reported Hrep.
  - intros Hrep; inv_reported Hrep.
  - right. right. left. reflexivity.
  - reflexivity.
Defined.

(** X17. A module without merge names merges nothing and exports only its
    own outputs: in a run whose context has no error when collection ends,
    and in which neither the compile nor the primary merge reports a
    failure, collection returned no class and no resource jarSpecs, the
    exported class jarSpecs are the module's own class jarSpec alone and the
    exported resource jarSpecs are those of its own resource directories,
    whatever its link-only dependencies export. *)
Theorem no_merge_names_exports_own `{BuildEnv} (j j' : javaBase)
    (ctx : AndroidModuleContext) (s s1 s' : ctxState) (cp : list string) (boot : string)
    (cjs rjs : list jarSpec) :
  Java_static_libs (properties j) = [] ->
  collectDeps j ctx s = Returns ((cp, boot, cjs, rjs), s1) ->
  errors s1 = [] ->
  javaBase_GenerateJavaBuildActions j ctx s = Returns (j', s') ->
  ~ reported Compile s' -> ~ reported PrimaryMerge s' ->
  cjs = [] /\ rjs = [] /\
  ClassJarSpecs j' = [ownClasses j ctx cp boot] /\
  ResourceJarSpecs j' = ownResources j.
Proof.
  intros Hstatic Hc He Hrun Hcompile Hmerge.
  assert (Hnone : forall deps, filter (isMergeDep j) deps = []).
  { induction deps as [|d deps IH]; [reflexivity|].
    cbn [filter]. unfold isMergeDep at 1. rewrite Hstatic. cbn [inList].
    rewrite andb_false_r. exact IH. }
  pose proof Hc as Hx. unfold collectDeps, VisitDirectDeps in Hx.
  rewrite visitEach_placed in Hx.
  destruct (find (isUnknownDep j ctx) (directDeps ctx)); [discriminate|].
  rewrite Hnone in Hx. cbn [app flat_map] in Hx. injection Hx as _ _ <- <- _.
  destruct (pipeline_exports j ctx s s1 _ _ _ _ Hc He) as (j2 & s2 & Hrun2 & Hexp).
  rewrite Hrun in Hrun2. injection Hrun2 as <- <-.
  destruct (Hexp Hcompile Hmerge) as (Hcls & Hres & _).
  cbn [ClassJarSpecs ResourceJarSpecs javaBase_JavaDependency].
  rewrite Hcls, Hres, app_nil_r. repeat split.
Qed.

Lemma no_merge_names_exports_own_witness :
  exists j' s',
    javaBase_GenerateJavaBuildActions (sample_javaBase linkOnly_properties)
        (sample_ctx false [("a", sample_built "a.jar" ["a.classes"] ["a.res"])] neverFails)
        emptyState = Returns (j', s') /\
    @ClassJarSpecs sampleEnv _ _ j' = ["classes.list"] /\
    @ResourceJarSpecs sampleEnv _ _ j' = ["res/res"].
Proof.
  do 2 eexists. split; [cbv; reflexivity|].
  destruct (no_merge_names_exports_own (sample_javaBase linkOnly_properties) _
              (sample_ctx false [("a", sample_built "a.jar" ["a.classes"] ["a.res"])]
                 neverFails)
              emptyState emptyState _ ["a.jar"] "" [] [] eq_refl eq_refl eq_refl eq_refl)
    as (_ & _ & Hcls & Hres).
  - intros Hrep; inv_reported Hrep.
  - intros Hrep; inv_reported Hrep.
  - split; [exact Hcls | exact Hres].
Defined.

(** ** What the build actions leave alone *)

(** X18. Build actions never change a module's properties: not those of a
    library, not those of a binary (whose wrapper is kept too), not those of
    a prebuilt. *)
Theorem build_actions_keep_properties `{BuildEnv} (ctx : AndroidModuleContext)
    (s s' : ctxState) :
  (forall j j' : javaBase,
      javaBase_GenerateJavaBuildActions j ctx s = Returns (j', s') ->
      properties j' = properties j) /\
  (forall b b' : JavaBinary,
      GenerateJavaBuildActions b ctx s = Returns (b', s') ->
      properties (JavaLibrary_javaBase (JavaBinary_JavaLibrary b')) =
        properties (JavaLibrary_javaBase (JavaBinary_JavaLibrary b)) /\
      Wrapper b' = Wrapper b) /\
  (forall p p' : Prebuilt.JavaPrebuilt,
      JavaPrebuilt_GenerateAndroidBuildActions p ctx s = Returns (p', s') ->
      Prebuilt.properties p' = Prebuilt.properties p).
Proof.
  split; [|split].
  - intros j j' Hrun. exact (pipeline_preserves_properties j j' ctx s s' Hrun).
  - intros b b' Hrun. split.
    + exact (binary_preserves_properties b b' ctx s s' Hrun).
    + destruct (binary_run b b' ctx s s' Hrun) as (j1 & s2 & _ & -> & _). reflexivity.
  - intros p p'. unfold JavaPrebuilt_GenerateAndroidBuildActions.
    destruct (negb (length (Prebuilt.Srcs (Prebuilt.properties p)) =? 1)%nat).
    + unfold ModuleErrorf, bind, ret. intros [= <- _]. reflexivity.
    + unfold TransformPrebuiltJarToClasses, ctx_InstallFileName, request, ModuleErrorf,
        bind, ret.
      destruct (prebuiltSpecsOf _) as [c r].
      destruct (stageFails ctx _); intros [= <- _]; reflexivity.
Qed.

Lemma build_actions_keep_properties_witness :
  exists j' s',
    javaBase_GenerateJavaBuildActions (sample_javaBase (twoLibs_properties "rules.txt"))
        (sample_ctx true twoLibs_deps neverFails) emptyState = Returns (j', s') /\
    properties j' = twoLibs_properties "rules.txt".
Proof.
  do 2 eexists. split; [cbv; reflexivity|].
  exact (proj1 (build_actions_keep_properties (sample_ctx true twoLibs_deps neverFails)
                  emptyState _)
           (sample_javaBase (twoLibs_properties "rules.txt")) _ eq_refl).
Defined.

Lemma collectDeps_reads_properties `{BuildEnv} (j1 j2 : javaBase)
    (ctx : AndroidModuleContext) (s : ctxState) :
  properties j1 = properties j2 ->
  collectDeps j1 ctx s = collectDeps j2 ctx s.
Proof.
  intros Hp. unfold collectDeps, VisitDirectDeps. apply visitEach_ext.
  intros [[[cp b] c] r] n m s0. unfold visitDep, BootClasspath. rewrite Hp. reflexivity.
Qed.

(** X19. The build actions read nothing of a module but its properties:
    two modules with equal properties, run in the same context from the
    same state, either both panic with the same value or both return with
    the same context state; and when the run ends without any error the two
    modules are equal afterwards, so that nothing of what the fields held
    before the run survives. *)
Theorem run_reads_only_properties `{BuildEnv} (j1 j2 : javaBase)
    (ctx : AndroidModuleContext) (s : ctxState) :
  properties j1 = properties j2 ->
  match javaBase_GenerateJavaBuildActions j1 ctx s,
        javaBase_GenerateJavaBuildActions j2 ctx s with
  | Returns (j1', s1'), Returns (j2', s2') =>
      s1' = s2' /\ (errors s1' = [] -> j1' = j2')
  | Panics p1, Panics p2 => p1 = p2
  | _, _ => False
  end.
Proof.
  intros Hp. unfold javaBase_GenerateJavaBuildActions, bind.
  rewrite (collectDeps_reads_properties j1 j2 ctx s Hp).
  destruct (collectDeps j2 ctx s) as [[[[[cp boot] cjs] rjs] s1]|p]; [|reflexivity].
  destruct j1 as [p1 f1 c1 r1 i1], j2 as [p2 f2 c2 r2 i2]. cbn [properties] in Hp. subst p2.
  unfold javacInputs. cbn [properties].
  destruct (if nonEmpty boot then _ else _) as [flags0 deps0].
  destruct (if (0 <? length cp)%nat then _ else _) as [flags javacDeps].
  unfold_pipeline.
  destruct (errors s1) as [|e es] eqn:He.
  - split_stages He.
    all: split; [reflexivity|]; intros Hok; try discriminate Hok.
    all: reflexivity.
  - reduce_state He.
    destruct (stageFails _ (JavaToClasses _ _ _)); reduce_state He.
    all: split; [reflexivity|]; intros Hok; discriminate Hok.
Qed.

Lemma run_reads_only_properties_witness :
  match javaBase_GenerateJavaBuildActions (sample_javaBase (twoLibs_properties ""))
          (sample_ctx true twoLibs_deps neverFails) emptyState,
        javaBase_GenerateJavaBuildActions
          (@Build_javaBase sampleEnv (twoLibs_properties "") "stale.jar" ["stale"] ["stale"]
             "stale")
          (sample_ctx true twoLibs_deps neverFails) emptyState with
  | Returns (j1', s1'), Returns (j2', s2') =>
      s1' = s2' /\ (errors s1' = [] -> j1' = j2')
  | Panics p1, Panics p2 => p1 = p2
  | _, _ => False
  end.
Proof.
  exact (run_reads_only_properties (sample_javaBase (twoLibs_properties ""))
           (@Build_javaBase sampleEnv (twoLibs_properties "") "stale.jar" ["stale"]
              ["stale"] "stale")
           (sample_ctx true twoLibs_deps neverFails) emptyState eq_refl).
Defined.

(** X20. Every conversion to dex that a run requests converts the exported
    classpath file, and its dx flags are, joined by spaces: the module's
    [dxflags]; then "--no-optimize" when NO_OPTIMIZE_DX is set in the
    environment; then "--debug", "--verbose", "--dump-to=" with classes.lst
    in the module output directory and "--dump-width=1000" when
    GENERATE_DEX_DEBUG is set.  "--no-locals" is never added. *)
Theorem convert_input_and_flags `{BuildEnv} (j j' : javaBase) (ctx : AndroidModuleContext)
    (s s1 s' : ctxState) (x : collected) (classesJar : string) (flags : javaBuilderFlags) :
  collectDeps j ctx s = Returns (x, s1) ->
  errors s1 = [] ->
  javaBase_GenerateJavaBuildActions j ctx s = Returns (j', s') ->
  ~ In (ClassesJarToDex classesJar flags) (rules s1) ->
  In (ClassesJarToDex classesJar flags) (rules s') ->
  classesJar = ClasspathFile j' /\
  dxFlags flags =
    strings_Join
      (Dxflags (properties j)
         ++ (if nonEmpty (Getenv ctx "NO_OPTIMIZE_DX") then ["--no-optimize"] else [])
         ++ (if nonEmpty (Getenv ctx "GENERATE_DEX_DEBUG")
             then ["--debug"; "--verbose";
                   ("--dump-to=" ++ filepath_Join (ModuleOutDir ctx) "classes.lst")%string;
                   "--dump-width=1000"]
             else []))
      " ".
Proof.
  intros Hc He Hrun Hold Hin. destruct x as [[[cp boot] cjs] rjs].
  revert Hrun. unfold_pipeline. rewrite Hc.
  destruct (javacInputs j cp boot) as [flags0 javacDeps].
  split_stages He.
  all: intros [= <- <-]; cbn [rules] in Hin.
  all: repeat (apply in_app_or in Hin; destruct Hin as [Hin|Hin]).
  all: try contradiction.
  all: cbn [In] in Hin; repeat (destruct Hin as [Hin|Hin]; try discriminate Hin).
  all: try contradiction.
  all: injection Hin as <- <-.
  all: split; [reflexivity|].
  all: cbn [dxFlags set_dxFlags].
  all: destruct (nonEmpty (Getenv ctx "NO_OPTIMIZE_DX"));
    destruct (nonEmpty (Getenv ctx "GENERATE_DEX_DEBUG"));
    rewrite ?app_nil_r, <- ?app_assoc; reflexivity.
Qed.

Lemma convert_input_and_flags_witness :
  exists j' s',
    javaBase_GenerateJavaBuildActions (sample_javaBase (twoLibs_properties "rules.txt"))
        (sample_ctx true twoLibs_deps neverFails) emptyState = Returns (j', s') /\
    "classes-jarjar.jar" = @ClasspathFile sampleEnv _ _ j' /\
    dxFlags {| javacFlags := ""; dxFlags := "";
               bootClasspath := "-bootclasspath core-libart.jar";
               classpath := "-classpath a.jar:b.jar" |} = "".
Proof.
  do 2 eexists. split; [cbv; reflexivity|].
  apply (convert_input_and_flags (sample_javaBase (twoLibs_properties "rules.txt")) _
           (sample_ctx true twoLibs_deps neverFails) emptyState emptyState _
           (["a.jar"; "b.jar"], "core-libart.jar", ["b.classes"], ["b.res"])
           "classes-jarjar.jar"
           {| javacFlags := ""; dxFlags := "";
              bootClasspath := "-bootclasspath core-libart.jar";
              classpath := "-classpath a.jar:b.jar" |}
           eq_refl eq_refl eq_refl).
  - intros [].
  - cbv. right. right. right. left. reflexivity.
Defined.
